(** * The election ledger of [server.js]

    A shallow embedding of the request handlers of [src/server.js] (an Express
    application keeping its data in module-level [Map]s) and the properties of
    its specification that concern the vote ledger, the nullifier check, the
    differential-privacy budget, the ranked-ballot store and the range query.

    Conventions of the embedding.

    - Every handler is a function from the current stores (and the values the
      handler draws from its environment: the clock, [uuidv4], [Math.random])
      to the new stores and the outcome of the request.  An outcome is either
      [Json status body] for [res.status(status).json(body)], or [Next err]
      for an error handed to the error middleware, by [next(err)] or by an
      exception that [asyncWrap] catches.
    - The handlers that write to a store read by the properties are all
      present (q1, q4, q5, q6, q8, q16, q17, q18, q19), with the lookups q2 and
      q9 and the range query q15.  The listings q3, q7/q10, q11, q12, q13 and
      the weighted receipt q14 write to no store; the audit planner q20 writes
      only to its own [audits] map.  They are left out (the listings return
      the entries in the insertion order of a [Map], which is not kept here).
    - The scalar fields of a request body are values of [JsVal]: [null],
      booleans, numbers and strings, and [JUndefined] for an absent property.
      Arrays are typed at the three places where a handler expects one
      ([ranking], [query.buckets], [trustee_decrypt_shares]).
    - JSON numbers in identifier and counter positions are integers ([Z]);
      this agrees with the runtime's double-precision numbers on the
      safe-integer range, where [x + 1] is exact and [Number::toString] prints
      plain decimal digits.  The fractional parameters [epsilon] and [delta]
      and the accumulated budget are double-precision numbers as the runtime
      has them: values of [spec_float], with the IEEE 754 addition,
      subtraction and comparisons of [SpecFloat] at precision 53 and maximal
      exponent 1024, so that every sum is rounded as the runtime rounds it.
    - [parseInt(...)] and [new Date(...)] are applied to path and query
      parameters before anything else; a request carries their result, [None]
      standing for [NaN] and for an invalid [Date].  A timestamp is the number
      of milliseconds since the epoch; [toISOString] followed by [new Date]
      gives the same instant back.
    - A [Map] is a [gmap].  The handlers modelled here consume a map's
      iteration order only through [filter(...).length] and [some(...)],
      which do not depend on it. *)

From stdpp Require Import base option decidable countable gmap strings pretty list fin_maps numbers.
From Stdlib Require Import Ascii QArith SpecFloat.

Local Open Scope Z_scope.

(** ** JavaScript values *)

Inductive JsVal :=
| JUndefined
| JNull
| JBool (b : bool)
| JNum (z : Z)
| JStr (s : string).

Global Instance JsVal_eq_dec : EqDecision JsVal.
Proof. solve_decision. Defined.

Global Instance JsVal_countable : Countable JsVal.
Proof.
  refine (inj_countable'
    (fun v => match v with
              | JUndefined => inl (inl true)
              | JNull => inl (inl false)
              | JBool b => inl (inr b)
              | JNum z => inr (inl z)
              | JStr s => inr (inr s)
              end)
    (fun e => match e with
              | inl (inl true) => JUndefined
              | inl (inl false) => JNull
              | inl (inr b) => JBool b
              | inr (inl z) => JNum z
              | inr (inr s) => JStr s
              end) _).
  by intros [].
Defined.

(** [ToBoolean]: what [!x] negates. *)
Definition truthy (v : JsVal) : bool :=
  match v with
  | JUndefined | JNull => false
  | JBool b => b
  | JNum z => negb (z =? 0)
  | JStr s => negb (String.eqb s "")
  end.

Definition falsy (v : JsVal) : bool := negb (truthy v).

(** [a === b] on scalars; it coincides with the [SameValueZero] comparison of
    [Map] keys, since no [NaN] comes out of a JSON body. *)
Definition strict_eq (a b : JsVal) : bool := bool_decide (a = b).

(** [`${v}`]: the string a template literal interpolates for [v]. *)
Definition to_string (v : JsVal) : string :=
  match v with
  | JUndefined => "undefined"
  | JNull => "null"
  | JBool true => "true"
  | JBool false => "false"
  | JNum z => pretty z
  | JStr s => s
  end.

(** The result of [parseInt]: [None] is [NaN]. *)
Definition num_to_string (n : option Z) : string :=
  match n with
  | Some z => pretty z
  | None => "NaN"
  end.

(** [!n] for the result of [parseInt]: [NaN] and [0] are falsy. *)
Definition num_falsy (n : option Z) : bool :=
  match n with
  | Some z => z =? 0
  | None => true
  end.

(** ** Double-precision numbers *)

(** [x + y], [x - y], [x < y], [x <= y] and [x > y] on IEEE 754 binary64
    numbers; a comparison with [NaN] is false. *)
Definition b64_plus : spec_float -> spec_float -> spec_float := SFadd 53 1024.
Definition b64_minus : spec_float -> spec_float -> spec_float := SFsub 53 1024.
Definition b64_lt (x y : spec_float) : bool := SFltb x y.
Definition b64_le (x y : spec_float) : bool := SFleb x y.
Definition b64_gt (x y : spec_float) : bool := SFltb y x.

(** [!x] for a number: [0], [-0] and [NaN] are falsy. *)
Definition b64_falsy (x : spec_float) : bool :=
  match x with
  | S754_zero _ | S754_nan => true
  | S754_infinity _ | S754_finite _ _ _ => false
  end.

(** The literals [0] and [1.0]. *)
Definition b64_zero : spec_float := S754_zero false.
Definition b64_one : spec_float := S754_finite false 4503599627370496 (-52).

(** [map.has(key)] *)
Definition has {V} (k : JsVal) (m : gmap JsVal V) : bool :=
  bool_decide (is_Some (m !! k)).

(** [map.has(n)] for a number that may be [NaN]; no key is [NaN]. *)
Definition has_num {V} (n : option Z) (m : gmap JsVal V) : bool :=
  match n with
  | Some z => has (JNum z) m
  | None => false
  end.

(** ** Entities *)

Module Voter.
Record t := mk { voter_id : JsVal; name : JsVal; age : Z; has_voted : bool }.
End Voter.

Module Candidate.
Record t := mk { candidate_id : JsVal; name : JsVal; party : JsVal; votes : Z }.
End Candidate.

Module Vote.
Record t := mk { vote_id : Z; voter_id : JsVal; candidate_id : JsVal; timestamp : Z }.
End Vote.

Module Ballot.
Record t := mk { ballot_id : string; status : string; nullifier : JsVal; anchored_at : Z }.
End Ballot.

Module Tally.
Record entry := mk_entry { candidate_id : JsVal; votes : Z }.
Record t := mk {
  election_id : JsVal;
  encrypted_tally_root : string;
  candidate_tallies : list entry;
  decryption_proof : string;
  ballot_merkle_root : string;
  tally_method : string;
  threshold : string }.
End Tally.

Module RankedBallot.
Record t := mk {
  ballot_id : string;
  election_id : JsVal;
  voter_id : JsVal;
  ranking : list JsVal;
  timestamp : Z }.
End RankedBallot.

(** ** Request bodies with more than a few fields *)

Module BallotBody.
Record t := mk {
  election_id : JsVal;
  ciphertext : JsVal;
  zk_proof : JsVal;
  voter_pubkey : JsVal;
  nullifier : JsVal;
  signature : JsVal }.
End BallotBody.

Module Share.
Record t := mk { trustee_id : JsVal; share : JsVal; proof : JsVal }.
End Share.

(** [query.buckets] is either an array or some scalar (absent: [JUndefined]). *)
Inductive Buckets :=
| BucketsArray (items : list JsVal)
| BucketsValue (v : JsVal).

Module DpQuery.
Record t := mk { type : JsVal; dimension : JsVal; buckets : Buckets }.
End DpQuery.

(** ** Stores, environment and outcomes *)

(** The module-level variables of [server.js]. *)
Record State := mkState {
  voters : gmap JsVal Voter.t;
  candidates : gmap JsVal Candidate.t;
  votes : gmap Z Vote.t;
  nextVoteId : Z;
  encryptedBallots : gmap string Ballot.t;
  homomorphicTallies : gmap JsVal Tally.t;
  dpAnalyticsBudget : gmap JsVal spec_float;
  rankedBallots : gmap string RankedBallot.t }.

(** The stores when the server starts: empty maps, [nextVoteId = 101]. *)
Definition initial : State :=
  mkState ∅ ∅ ∅ 101 ∅ ∅ ∅ ∅.

Definition with_voters (st : State) (m : gmap JsVal Voter.t) : State :=
  mkState m (candidates st) (votes st) (nextVoteId st) (encryptedBallots st)
          (homomorphicTallies st) (dpAnalyticsBudget st) (rankedBallots st).

Definition with_candidates (st : State) (m : gmap JsVal Candidate.t) : State :=
  mkState (voters st) m (votes st) (nextVoteId st) (encryptedBallots st)
          (homomorphicTallies st) (dpAnalyticsBudget st) (rankedBallots st).

Definition with_encryptedBallots (st : State) (m : gmap string Ballot.t) : State :=
  mkState (voters st) (candidates st) (votes st) (nextVoteId st) m
          (homomorphicTallies st) (dpAnalyticsBudget st) (rankedBallots st).

Definition with_homomorphicTallies (st : State) (m : gmap JsVal Tally.t) : State :=
  mkState (voters st) (candidates st) (votes st) (nextVoteId st) (encryptedBallots st)
          m (dpAnalyticsBudget st) (rankedBallots st).

Definition with_dpAnalyticsBudget (st : State) (m : gmap JsVal spec_float) : State :=
  mkState (voters st) (candidates st) (votes st) (nextVoteId st) (encryptedBallots st)
          (homomorphicTallies st) m (rankedBallots st).

Definition with_rankedBallots (st : State) (m : gmap string RankedBallot.t) : State :=
  mkState (voters st) (candidates st) (votes st) (nextVoteId st) (encryptedBallots st)
          (homomorphicTallies st) (dpAnalyticsBudget st) m.

(** What a handler reads from outside the stores while it serves one request. *)
Record Env := mkEnv {
  now : Z;                      (* [new Date()], in milliseconds *)
  uuid : string;                (* [uuidv4()] *)
  random : nat -> Z -> Z;       (* the i-th [Math.floor(Math.random() * n)] *)
  random_hex : nat -> string    (* the i-th [Math.random().toString(16).slice(..)] *)
}.

(** What reaches the error middleware: an [ExpressError] carries its status,
    any other exception (here: [TypeError]) carries none. *)
Inductive Thrown :=
| ExpressError (message : string) (status : Z)
| TypeError (message : string).

Inductive Reply :=
| RVoter (v : Voter.t)
| RMessage (message : string)
| RCandidate (c : Candidate.t)
| RVote (v : Vote.t)
| RVoteCount (candidate_id : JsVal) (votes : Z)
| RRange (candidate_id from to : Z) (votes_gained : nat)
| RBallot (b : Ballot.t)
| RTally (t : Tally.t)
| RHistogram (election_id query_type dimension : JsVal) (histogram : gmap string Z)
             (epsilon_used delta_used remaining_budget : spec_float)
| RRanked (ballot_id status : string).

Inductive Result :=
| Json (status : Z) (body : Reply)
| Next (err : Thrown).

(** The error middleware at the end of the file:
    [const { message = 'Something went wrong', status = 500 } = err]. *)
Definition error_status (err : Thrown) : Z :=
  match err with
  | ExpressError _ status => status
  | TypeError _ => 500
  end.

Definition status_of (r : Result) : Z :=
  match r with
  | Json status _ => status
  | Next err => error_status err
  end.

(** [Array.from(map.values())] *)
Definition values {K V} `{Countable K} (m : gmap K V) : list V :=
  (map_to_list m).*2.

(** ** Voters (q1, q2, q4, q5) *)

(** [POST /api/voters].  [age] is [None] when the property is absent
    ([age === undefined]). *)
Definition post_voters (st : State) (voter_id name : JsVal) (age : option Z)
  : State * Result :=
  match age with
  | None => (st, Next (ExpressError "voter_id, name, and age are required" 409))
  | Some age =>
    if falsy voter_id || falsy name then
      (st, Next (ExpressError "voter_id, name, and age are required" 409))
    else if age <? 18 then
      (st, Next (ExpressError "voter must be at least 18 years old" 409))
    else if has voter_id (voters st) then
      (st, Next (ExpressError
                   ("voter with id: " +:+ to_string voter_id +:+ " already exists") 409))
    else
      let newVoter := Voter.mk voter_id name age false in
      (with_voters st (<[voter_id := newVoter]> (voters st)), Json 218 (RVoter newVoter))
  end.

(** The lookup of a path parameter after [parseInt]: [voters.has(id)] and
    [voters.get(id)]. *)
Definition get_num {V} (n : option Z) (m : gmap JsVal V) : option V :=
  match n with
  | Some z => m !! JNum z
  | None => None
  end.

(** [GET /api/voters/:voter_id] *)
Definition get_voter (st : State) (voter_id : option Z) : State * Result :=
  match get_num voter_id (voters st) with
  | None =>
    (st, Next (ExpressError
                 ("voter with id: " +:+ num_to_string voter_id +:+ " was not found") 417))
  | Some voter => (st, Json 222 (RVoter voter))
  end.

(** [PUT /api/voters/:voter_id]; [name] is [JUndefined] and [age] is [None]
    when the body does not have the property. *)
Definition put_voter (st : State) (voter_id : option Z) (name : JsVal) (age : option Z)
  : State * Result :=
  match voter_id, get_num voter_id (voters st) with
  | Some id, Some voter =>
    match age with
    | Some a =>
      if a <? 18 then
        (st, Next (ExpressError
                     ("invalid age: " +:+ pretty a +:+ ", must be 18 or older") 417))
      else
        let voter' :=
          Voter.mk (Voter.voter_id voter)
                   (if bool_decide (name = JUndefined) then Voter.name voter else name)
                   a (Voter.has_voted voter) in
        (with_voters st (<[JNum id := voter']> (voters st)), Json 200 (RVoter voter'))
    | None =>
      let voter' :=
        Voter.mk (Voter.voter_id voter)
                 (if bool_decide (name = JUndefined) then Voter.name voter else name)
                 (Voter.age voter) (Voter.has_voted voter) in
      (with_voters st (<[JNum id := voter']> (voters st)), Json 200 (RVoter voter'))
    end
  | _, _ =>
    (st, Next (ExpressError
                 ("voter with id: " +:+ num_to_string voter_id +:+ " was not found") 417))
  end.

(** [DELETE /api/voters/:voter_id] *)
Definition delete_voter (st : State) (voter_id : option Z) : State * Result :=
  match voter_id, get_num voter_id (voters st) with
  | Some id, Some _ =>
    (with_voters st (delete (JNum id) (voters st)),
     Json 225 (RMessage ("voter with id: " +:+ pretty id +:+ " deleted successfully")))
  | _, _ =>
    (st, Next (ExpressError
                 ("voter with id: " +:+ num_to_string voter_id +:+ " was not found") 417))
  end.

(** ** Candidates (q6, q9) *)

(** [POST /api/candidates] *)
Definition post_candidates (st : State) (candidate_id name party : JsVal)
  : State * Result :=
  if falsy candidate_id || falsy name || falsy party then
    (st, Next (ExpressError "candidate_id, name, and party are required" 409))
  else if has candidate_id (candidates st) then
    (st, Next (ExpressError
                 ("candidate with id: " +:+ to_string candidate_id +:+ " already exists") 409))
  else
    let newCandidate := Candidate.mk candidate_id name party 0 in
    (with_candidates st (<[candidate_id := newCandidate]> (candidates st)),
     Json 226 (RCandidate newCandidate)).

(** [GET /api/candidates/:candidate_id/votes] *)
Definition get_candidate_votes (st : State) (candidate_id : option Z) : State * Result :=
  match get_num candidate_id (candidates st) with
  | None =>
    (st, Next (ExpressError
                 ("candidate with id: " +:+ num_to_string candidate_id +:+ " was not found") 417))
  | Some candidate =>
    (st, Json 229 (RVoteCount (Candidate.candidate_id candidate) (Candidate.votes candidate)))
  end.

(** ** Casting a vote (q8) *)

(** [POST /api/votes].  The handler tests [voters.has] and [candidates.has]
    and then reads the entries with [get]; both are the lookup [!!] here. *)
Definition post_votes (env : Env) (st : State) (voter_id candidate_id : JsVal)
  : State * Result :=
  if falsy voter_id || falsy candidate_id then
    (st, Next (ExpressError "voter_id and candidate_id are required" 409))
  else
    match voters st !! voter_id with
    | None =>
      (st, Next (ExpressError
                   ("voter with id: " +:+ to_string voter_id +:+ " was not found") 417))
    | Some voter =>
      if Voter.has_voted voter then
        (st, Next (ExpressError
                     ("voter with id: " +:+ to_string voter_id +:+ " has already voted") 423))
      else
        match candidates st !! candidate_id with
        | None =>
          (st, Next (ExpressError
                       ("candidate with id: " +:+ to_string candidate_id +:+ " was not found")
                       409))
        | Some candidate =>
          (* const vote_id = nextVoteId++ *)
          let vote_id := nextVoteId st in
          let newVote := Vote.mk vote_id voter_id candidate_id (now env) in
          (* voter.has_voted = true *)
          let voter' :=
            Voter.mk (Voter.voter_id voter) (Voter.name voter) (Voter.age voter) true in
          (* candidate.votes += 1 *)
          let candidate' :=
            Candidate.mk (Candidate.candidate_id candidate) (Candidate.name candidate)
                         (Candidate.party candidate) (Candidate.votes candidate + 1) in
          (mkState (<[voter_id := voter']> (voters st))
                   (<[candidate_id := candidate']> (candidates st))
                   (<[vote_id := newVote]> (votes st))
                   (nextVoteId st + 1)
                   (encryptedBallots st) (homomorphicTallies st)
                   (dpAnalyticsBudget st) (rankedBallots st),
           Json 228 (RVote newVote))
        end
    end.

(** ** Votes of a candidate within a time range (q15) *)

(** [GET /api/votes/range].  [candidate_id] is [parseInt(req.query.candidate_id)];
    [from] and [to] are [new Date(req.query.from)] and [new Date(req.query.to)],
    [None] when [isNaN] holds of them. *)
Definition get_votes_range (st : State) (candidate_id : option Z) (from to : option Z)
  : State * Result :=
  if num_falsy candidate_id || negb (has_num candidate_id (candidates st)) then
    (st, Next (ExpressError
                 ("candidate with id: " +:+ num_to_string candidate_id +:+ " was not found") 417))
  else
    match candidate_id, from, to with
    | Some id, Some from, Some to =>
      if to <? from then
        (st, Next (ExpressError "invalid interval: from > to" 424))
      else
        let votes_gained :=
          length
            (filter (fun v => Vote.timestamp v >= from /\ Vote.timestamp v <= to)
                    (filter (fun v => Vote.candidate_id v = JNum id) (values (votes st)))) in
        (st, Json 235 (RRange id from to votes_gained))
    | _, _, _ => (st, Next (ExpressError "Invalid date format" 400))
    end.

(** ** Encrypted ballots (q16) *)

(** The placeholder of the source: every proof is accepted. *)
Definition verifyZKProof (ciphertext zk_proof voter_pubkey nullifier signature : JsVal) : bool :=
  true.

(** [POST /api/ballots/encrypted] *)
Definition post_ballots_encrypted (env : Env) (st : State) (body : BallotBody.t)
  : State * Result :=
  let nullifier := BallotBody.nullifier body in
  if falsy (BallotBody.election_id body) || falsy (BallotBody.ciphertext body)
     || falsy (BallotBody.zk_proof body) || falsy (BallotBody.voter_pubkey body)
     || falsy nullifier || falsy (BallotBody.signature body) then
    (st, Next (ExpressError "All fields are required" 400))
  else if existsb (fun b => strict_eq (Ballot.nullifier b) nullifier)
                  (values (encryptedBallots st)) then
    (st, Next (ExpressError "duplicate nullifier: ballot already submitted" 409))
  else if negb (verifyZKProof (BallotBody.ciphertext body) (BallotBody.zk_proof body)
                              (BallotBody.voter_pubkey body) nullifier
                              (BallotBody.signature body)) then
    (st, Next (ExpressError "invalid zk proof" 425))
  else
    let ballot_id := "b_" +:+ uuid env in
    let newBallot := Ballot.mk ballot_id "accepted" nullifier (now env) in
    (with_encryptedBallots st (<[ballot_id := newBallot]> (encryptedBallots st)),
     Json 236 (RBallot newBallot)).

(** ** Homomorphic tally (q17) *)

(** The property [map] of a [Map] instance.  [Map.prototype] provides [get],
    [set], [has], [delete], [values], [forEach] and the like; [map] is a method
    of [Array.prototype] only, so reading it from [candidates] gives
    [undefined]. *)
Definition Map_prototype_map
  : option ((Candidate.t -> Tally.entry) -> gmap JsVal Candidate.t -> list Tally.entry) :=
  None.

(** The loop over the shares: the first share that lacks a field ends it. *)
Definition share_incomplete (s : Share.t) : bool :=
  falsy (Share.trustee_id s) || falsy (Share.share s) || falsy (Share.proof s).

(** [POST /api/results/homomorphic].  [trustee_decrypt_shares] is [None] when
    [Array.isArray] fails on it.  Calling [candidates.map], which is
    [undefined], raises a [TypeError]; [asyncWrap] passes it on. *)
Definition post_results_homomorphic (env : Env) (st : State) (election_id : JsVal)
           (trustee_decrypt_shares : option (list Share.t)) : State * Result :=
  match trustee_decrypt_shares with
  | None | Some [] =>
    (st, Next (ExpressError "election_id and trustee_decrypt_shares are required" 400))
  | Some shares =>
    if falsy election_id then
      (st, Next (ExpressError "election_id and trustee_decrypt_shares are required" 400))
    else if existsb share_incomplete shares then
      (st, Next (ExpressError "Each trustee share must have trustee_id, share, and proof" 400))
    else
      let encrypted_tally_root := "0x" +:+ random_hex env 0 in
      match Map_prototype_map with
      | None => (st, Next (TypeError "candidates.map is not a function"))
      | Some map =>
        let candidate_tallies :=
          (* candidate_id: candidate.id, a property no candidate has *)
          map (fun candidate => Tally.mk_entry JUndefined (Candidate.votes candidate))
              (candidates st) in
        let result :=
          Tally.mk election_id encrypted_tally_root candidate_tallies
                   "base64(batch_proof_linking_cipher_aggregate_to_plain_counts)"
                   ("0x" +:+ random_hex env 1) "threshold_paillier" "3-of-5" in
        (with_homomorphicTallies st (<[election_id := result]> (homomorphicTallies st)),
         Json 237 (RTally result))
      end
  end.

(** ** Differential-privacy budget (q18) *)

Definition maxBudget : spec_float := b64_one.

Definition buckets_falsy (b : Buckets) : bool :=
  match b with
  | BucketsArray _ => false          (* an array is truthy, also the empty one *)
  | BucketsValue v => falsy v
  end.

(** [dpAnalyticsBudget.get(election_id) || 0] *)
Definition currentBudget (st : State) (election_id : JsVal) : spec_float :=
  match dpAnalyticsBudget st !! election_id with
  | Some spent => if b64_falsy spent then b64_zero else spent
  | None => b64_zero
  end.

(** [query.buckets.forEach(bucket => histogram[bucket] = Math.floor(Math.random() * 100))];
    [i] counts the draws. *)
Fixpoint fill_histogram (env : Env) (i : nat) (buckets : list JsVal) (histogram : gmap string Z)
  : gmap string Z :=
  match buckets with
  | [] => histogram
  | bucket :: rest =>
    fill_histogram env (S i) rest (<[to_string bucket := random env i 100]> histogram)
  end.

(** [POST /api/analytics/dp].  [query] is [None] when the body has no object
    there; [epsilon] and [delta] are [None] when [typeof] is not ["number"]. *)
Definition post_analytics_dp (env : Env) (st : State) (election_id : JsVal)
           (query : option DpQuery.t) (epsilon delta : option spec_float) : State * Result :=
  match query with
  | None => (st, Next (ExpressError "election_id and valid query parameters are required" 400))
  | Some query =>
    if falsy election_id || falsy (DpQuery.type query) || falsy (DpQuery.dimension query)
       || buckets_falsy (DpQuery.buckets query) then
      (st, Next (ExpressError "election_id and valid query parameters are required" 400))
    else
      match epsilon with
      | None => (st, Next (ExpressError "epsilon must be a positive number" 400))
      | Some epsilon =>
        (* epsilon <= 0 *)
        if b64_le epsilon b64_zero then
          (st, Next (ExpressError "epsilon must be a positive number" 400))
        else
          match delta with
          | None => (st, Next (ExpressError "delta must be between 0 and 1" 400))
          | Some delta =>
            (* delta < 0 || delta > 1 *)
            if b64_lt delta b64_zero || b64_gt delta b64_one then
              (st, Next (ExpressError "delta must be between 0 and 1" 400))
            else
              let current := currentBudget st election_id in
              (* currentBudget + epsilon > maxBudget *)
              if b64_gt (b64_plus current epsilon) maxBudget then
                (st, Next (ExpressError
                             "Differential privacy budget exceeded for this election" 403))
              else
                match DpQuery.buckets query with
                | BucketsValue _ =>
                  (st, Next (TypeError "query.buckets.forEach is not a function"))
                | BucketsArray buckets =>
                  let histogram := fill_histogram env 0 buckets ∅ in
                  let spent := b64_plus current epsilon in
                  (with_dpAnalyticsBudget st (<[election_id := spent]> (dpAnalyticsBudget st)),
                   Json 200 (RHistogram election_id (DpQuery.type query)
                                        (DpQuery.dimension query) histogram
                                        epsilon delta (b64_minus maxBudget spent)))
                end
          end
      end
  end.

(** ** Ranked ballots (q19) *)

(** [`${election_id}_${voter_id}`] *)
Definition voterKey (election_id voter_id : JsVal) : string :=
  to_string election_id +:+ "_" +:+ to_string voter_id.

(** [POST /api/ballots/ranked].  [ranking] is [None] when it is falsy or not an
    array; [ts] is [new Date(timestamp).getTime()], [None] for [NaN]. *)
Definition post_ballots_ranked (env : Env) (st : State) (election_id voter_id : JsVal)
           (ranking : option (list JsVal)) (ts : option Z) : State * Result :=
  match ranking with
  | None | Some [] =>
    (st, Next (ExpressError "election_id, voter_id, and valid ranking array are required" 400))
  | Some ranking =>
    if falsy election_id || falsy voter_id then
      (st, Next (ExpressError "election_id, voter_id, and valid ranking array are required" 400))
    else
      match ts with
      | None => (st, Next (ExpressError "invalid timestamp format" 400))
      | Some ts =>
        let key := voterKey election_id voter_id in
        if bool_decide (is_Some (rankedBallots st !! key)) then
          (st, Next (ExpressError
                       ("voter with id: " +:+ to_string voter_id
                        +:+ " has already submitted a ranked ballot for election "
                        +:+ to_string election_id) 409))
        else
          let ballot_id := "rb_" +:+ pretty (random env 0 10000) in
          (with_rankedBallots st
             (<[key := RankedBallot.mk ballot_id election_id voter_id ranking ts]>
                (rankedBallots st)),
           Json 200 (RRanked ballot_id "accepted"))
      end
  end.

(** ** The server *)

Inductive Request :=
| PostVoters (voter_id name : JsVal) (age : option Z)
| GetVoter (voter_id : option Z)
| PutVoter (voter_id : option Z) (name : JsVal) (age : option Z)
| DeleteVoter (voter_id : option Z)
| PostCandidates (candidate_id name party : JsVal)
| GetCandidateVotes (candidate_id : option Z)
| PostVotes (voter_id candidate_id : JsVal)
| GetVotesRange (candidate_id from to : option Z)
| PostBallotsEncrypted (body : BallotBody.t)
| PostResultsHomomorphic (election_id : JsVal) (trustee_decrypt_shares : option (list Share.t))
| PostAnalyticsDp (election_id : JsVal) (query : option DpQuery.t)
                  (epsilon delta : option spec_float)
| PostBallotsRanked (election_id voter_id : JsVal) (ranking : option (list JsVal))
                    (ts : option Z).

Definition handle (env : Env) (st : State) (req : Request) : State * Result :=
  match req with
  | PostVoters voter_id name age => post_voters st voter_id name age
  | GetVoter voter_id => get_voter st voter_id
  | PutVoter voter_id name age => put_voter st voter_id name age
  | DeleteVoter voter_id => delete_voter st voter_id
  | PostCandidates candidate_id name party => post_candidates st candidate_id name party
  | GetCandidateVotes candidate_id => get_candidate_votes st candidate_id
  | PostVotes voter_id candidate_id => post_votes env st voter_id candidate_id
  | GetVotesRange candidate_id from to => get_votes_range st candidate_id from to
  | PostBallotsEncrypted body => post_ballots_encrypted env st body
  | PostResultsHomomorphic election_id shares =>
    post_results_homomorphic env st election_id shares
  | PostAnalyticsDp election_id query epsilon delta =>
    post_analytics_dp env st election_id query epsilon delta
  | PostBallotsRanked election_id voter_id ranking ts =>
    post_ballots_ranked env st election_id voter_id ranking ts
  end.

(** Serving a sequence of requests, one after the other; the log pairs every
    request with its outcome, in order. *)
Fixpoint run (st : State) (trace : list (Env * Request)) : State * list (Request * Result) :=
  match trace with
  | [] => (st, [])
  | (env, req) :: trace =>
    let '(st1, r) := handle env st req in
    let '(st2, log) := run st1 trace in
    (st2, (req, r) :: log)
  end.

Definition reachable (st : State) : Prop :=
  exists trace, (run initial trace).1 = st.

(** ** The errors of the specification, by the place that raises them *)

(** [MissingField] at the registration and casting endpoints. *)
Definition voter_fields_required : Thrown :=
  ExpressError "voter_id, name, and age are required" 409.
Definition candidate_fields_required : Thrown :=
  ExpressError "candidate_id, name, and party are required" 409.
Definition vote_fields_required : Thrown :=
  ExpressError "voter_id and candidate_id are required" 409.

(** [NotFound] and [AlreadyVoted] when a vote is cast. *)
Definition voter_not_found (voter_id : JsVal) : Thrown :=
  ExpressError ("voter with id: " +:+ to_string voter_id +:+ " was not found") 417.
Definition already_voted (voter_id : JsVal) : Thrown :=
  ExpressError ("voter with id: " +:+ to_string voter_id +:+ " has already voted") 423.
Definition candidate_not_found_on_cast (candidate_id : JsVal) : Thrown :=
  ExpressError ("candidate with id: " +:+ to_string candidate_id +:+ " was not found") 409.

(** [NotFound], [InvalidInput] and [InvalidInterval] of the range query. *)
Definition candidate_not_found (candidate_id : option Z) : Thrown :=
  ExpressError ("candidate with id: " +:+ num_to_string candidate_id +:+ " was not found") 417.
Definition invalid_date_format : Thrown :=
  ExpressError "Invalid date format" 400.
Definition invalid_interval : Thrown :=
  ExpressError "invalid interval: from > to" 424.

(** [MissingField] and [DuplicateNullifier] of the encrypted-ballot vault. *)
Definition ballot_fields_required : Thrown :=
  ExpressError "All fields are required" 400.
Definition duplicate_nullifier : Thrown :=
  ExpressError "duplicate nullifier: ballot already submitted" 409.

(** [DuplicateBallot] of the ranked-ballot store. *)
Definition duplicate_ballot (election_id voter_id : JsVal) : Thrown :=
  ExpressError ("voter with id: " +:+ to_string voter_id
                +:+ " has already submitted a ranked ballot for election "
                +:+ to_string election_id) 409.

(** [BudgetExceeded] of the differential-privacy tracker. *)
Definition budget_exceeded : Thrown :=
  ExpressError "Differential privacy budget exceeded for this election" 403.

(** ** Observations on logs and stores *)

(** The [Vote] a log entry reports: the body of a successful [POST /api/votes]. *)
Definition cast_vote (e : Request * Result) : option Vote.t :=
  match e with
  | (PostVotes _ _, Json _ (RVote v)) => Some v
  | _ => None
  end.

(** The votes cast successfully, in the order of the requests. *)
Definition successful_casts (log : list (Request * Result)) : list Vote.t :=
  omap cast_vote log.


(** The sum of the [votes] counters over all registered candidates. *)
Definition sum_votes (m : gmap JsVal Candidate.t) : Z :=
  map_fold (fun _ candidate acc => Candidate.votes candidate + acc) 0 m.

(** The number of ledger records that reference candidate [id] and whose
    timestamp lies in the closed interval from [from] to [to]. *)
Definition votes_between (st : State) (id from to : Z) : nat :=
  size (filter (fun entry : Z * Vote.t =>
                  Vote.candidate_id entry.2 = JNum id
                  /\ from <= Vote.timestamp entry.2 <= to)
               (votes st)).

(** The number of ledger records that reference candidate [id] and carry
    exactly the timestamp [t]. *)
Definition votes_at (st : State) (id t : Z) : nat :=
  size (filter (fun entry : Z * Vote.t =>
                  Vote.candidate_id entry.2 = JNum id /\ Vote.timestamp entry.2 = t)
               (votes st)).

(** The cumulative epsilon spent on an election: the stored amount, 0 for an
    election that has not been queried. *)
Definition spent (st : State) (election_id : JsVal) : spec_float :=
  match dpAnalyticsBudget st !! election_id with
  | Some amount => amount
  | None => b64_zero
  end.

(** The rational number a finite double stands for: [m * 2 ^ e], negated when
    the sign bit is set. *)
Definition b64_to_Q (x : spec_float) : Q :=
  match x with
  | S754_finite s m e => (inject_Z (cond_Zopp s (Z.pos m)) * 2 ^ e)%Q
  | _ => 0%Q
  end.

(** The value of a positive finite double counted in units of [2 ^ (-1074)],
    the smallest positive double; 0 for the others. *)
Definition units (m : positive) (e : Z) : Z := Z.pos m * 2 ^ (e + 1074).

Definition b64_units (x : spec_float) : Z :=
  match x with
  | S754_finite false m e => units m e
  | _ => 0
  end.

(** Zero, or a positive finite double in canonical form. *)
Definition b64_nonneg (x : spec_float) : Prop :=
  x = b64_zero \/ exists m e, x = S754_finite false m e /\ bounded 53 1024 m e = true.

(** Some stored ranked ballot was submitted for the pair [(election_id, voter_id)]. *)
Definition has_ranked_ballot (st : State) (election_id voter_id : JsVal) : Prop :=
  exists key b, rankedBallots st !! key = Some b
                /\ RankedBallot.election_id b = election_id
                /\ RankedBallot.voter_id b = voter_id.

(** ** Conditions on requests and traces *)


(** All six fields of an encrypted-ballot submission are present. *)
Definition ballot_complete (body : BallotBody.t) : bool :=
  truthy (BallotBody.election_id body) && truthy (BallotBody.ciphertext body)
  && truthy (BallotBody.zk_proof body) && truthy (BallotBody.voter_pubkey body)
  && truthy (BallotBody.nullifier body) && truthy (BallotBody.signature body).

(** [uuidv4] does not return [u] again while [trace] is served. *)
Definition uuid_fresh (u : string) (trace : list (Env * Request)) : Prop :=
  forall env body, (env, PostBallotsEncrypted body) ∈ trace -> uuid env <> u.

(** Valid parameters of a query: an election, a query with its type, its
    dimension and an array of buckets, a positive epsilon and a delta between
    0 and 1. *)
Definition dp_valid (election_id : JsVal) (query : DpQuery.t) (epsilon delta : spec_float)
  : Prop :=
  truthy election_id = true
  /\ truthy (DpQuery.type query) = true
  /\ truthy (DpQuery.dimension query) = true
  /\ (exists items, DpQuery.buckets query = BucketsArray items)
  /\ b64_gt epsilon b64_zero = true
  /\ b64_le b64_zero delta = true /\ b64_le delta b64_one = true.

(** A number as [JSON.parse] delivers it: a double in canonical form, finite
    or (for a literal beyond the range) infinite, never [NaN]. *)
Definition json_number (x : spec_float) : bool :=
  valid_binary 53 1024 x && match x with S754_nan => false | _ => true end.

(** The epsilon of a request, when it is a number, came out of [JSON.parse]. *)
Definition json_request (req : Request) : Prop :=
  match req with
  | PostAnalyticsDp _ _ (Some epsilon) _ => json_number epsilon = true
  | _ => True
  end.

Definition json_numbers (trace : list (Env * Request)) : Prop :=
  Forall (fun entry => json_request entry.2) trace.

Definition is_string (v : JsVal) : bool :=
  match v with JStr _ => true | _ => false end.

Definition is_number (v : JsVal) : bool :=
  match v with JNum _ => true | _ => false end.

(** The shapes of the data model: an election is named by a string, a voter
    by an integer. *)
Definition typed_pair (election_id voter_id : JsVal) : Prop :=
  is_string election_id = true /\ is_number voter_id = true.

(** Every stored ranked ballot has these shapes. *)
Definition ranked_store_typed (st : State) : Prop :=
  forall key b, rankedBallots st !! key = Some b ->
                typed_pair (RankedBallot.election_id b) (RankedBallot.voter_id b).

(** Whether the character [c] occurs in [s]. *)
Fixpoint occurs (c : Ascii.ascii) (s : string) : bool :=
  match s with
  | EmptyString => false
  | String a s => Ascii.eqb a c || occurs c s
  end.

(** ** Invariants of the stores *)

(** Every identifier in the ledger was handed out already. *)
Definition ledger_below_counter (st : State) : Prop :=
  forall id v, votes st !! id = Some v -> id < nextVoteId st.


(** No candidate is registered under a falsy identifier. *)
Definition candidate_ids_truthy (st : State) : Prop :=
  forall k c, candidates st !! k = Some c -> truthy k = true.

(** The ballot stored under the identifier made from [u] carries [nullifier]. *)
Definition anchored (u : string) (nullifier : JsVal) (st : State) : Prop :=
  exists b, encryptedBallots st !! ("b_" +:+ u) = Some b /\ Ballot.nullifier b = nullifier.

(** Every ranked ballot is stored under the key made from its own pair. *)
Definition ranked_keys_consistent (st : State) : Prop :=
  forall key b, rankedBallots st !! key = Some b ->
                key = voterKey (RankedBallot.election_id b) (RankedBallot.voter_id b).

(** Every stored amount is a positive double in canonical form, at most the
    maximum budget. *)
Definition budget_bounded (st : State) : Prop :=
  forall election_id amount,
    dpAnalyticsBudget st !! election_id = Some amount ->
    valid_binary 53 1024 amount = true
    /\ b64_lt b64_zero amount = true /\ b64_le amount b64_one = true.

(** ** Sample data for the worked instances *)

(** An environment whose clock reads [t] and whose [uuidv4] returns [u]. *)
Definition env_at (t : Z) (u : string) : Env :=
  mkEnv t u (fun i _ => Z.of_nat i) (fun _ => "c0ffee").

(** Two voters, one candidate; casts by an unknown voter, by voter 1 (twice)
    and by voter 2 (first for an unknown candidate). *)
Definition sample_election : list (Env * Request) :=
  [ (env_at 10 "u0", PostVoters (JNum 1) (JStr "Ada") (Some 30));
    (env_at 20 "u1", PostVoters (JNum 2) (JStr "Bob") (Some 41));
    (env_at 30 "u2", PostCandidates (JNum 7) (JStr "Cyd") (JStr "Green"));
    (env_at 40 "u3", PostVotes (JNum 3) (JNum 7));
    (env_at 50 "u4", PostVotes (JNum 1) (JNum 7));
    (env_at 60 "u5", PostVotes (JNum 1) (JNum 7));
    (env_at 70 "u6", PostVotes (JNum 2) (JNum 8));
    (env_at 80 "u7", PostVotes (JNum 2) (JNum 7)) ].


(** The stores after the two registrations and the candidate's. *)
Definition sample_registered : State :=
  (run initial (take 3 sample_election)).1.

(** The stores after all of [sample_election]: candidate 7 has the votes cast
    at the instants 50 and 80. *)
Definition sample_counted : State :=
  (run initial sample_election).1.

(** A complete trustee share. *)
Definition sample_share : Share.t :=
  Share.mk (JStr "trustee-1") (JStr "c2hhcmU=") (JStr "cHJvb2Y=").

(** A histogram query over three buckets, and one over no bucket at all. *)
Definition sample_query : DpQuery.t :=
  DpQuery.mk (JStr "histogram") (JStr "age_group")
             (BucketsArray [JStr "18-29"; JStr "30-44"; JStr "45+"]).

Definition sample_empty_query : DpQuery.t :=
  DpQuery.mk (JStr "histogram") (JStr "age_group") (BucketsArray []).

(** Three encrypted ballots: the second repeats the nullifier of the first
    and differs from it in every other field; the third is unrelated. *)
Definition sample_ballot : BallotBody.t :=
  BallotBody.mk (JStr "election-1") (JStr "ct-1") (JStr "zk-1") (JStr "pk-1")
                (JStr "0x4e554c4c") (JStr "sig-1").

Definition sample_replay : BallotBody.t :=
  BallotBody.mk (JStr "election-2") (JStr "ct-2") (JStr "zk-2") (JStr "pk-2")
                (JStr "0x4e554c4c") (JStr "sig-2").

Definition sample_other_ballot : BallotBody.t :=
  BallotBody.mk (JStr "election-1") (JStr "ct-3") (JStr "zk-3") (JStr "pk-3")
                (JStr "0x0ddba11") (JStr "sig-3").

(** What is served between the first ballot and its replay. *)
Definition sample_interlude : list (Env * Request) :=
  [ (env_at 110 "uuid-2", PostBallotsEncrypted sample_other_ballot);
    (env_at 120 "uuid-3", PostVoters (JNum 5) (JStr "Eve") (Some 19)) ].

(** The stores after the ranked ballot of voter ["north"] in election
    ["2025_city"] has been accepted by the fresh server. *)
Definition sample_ranked_strings : State :=
  (post_ballots_ranked (env_at 200 "u9") initial (JStr "2025_city") (JStr "north")
                       (Some [JNum 3; JNum 1; JNum 2]) (Some 1700)).1.

(** The stores after the ranked ballot of voter 12 in election ["city-rcv"]. *)
Definition sample_ranked_typed : State :=
  (run initial
       [ (env_at 200 "u9",
          PostBallotsRanked (JStr "city-rcv") (JNum 12)
                            (Some [JNum 3; JNum 1; JNum 2]) (Some 1700)) ]).1.

(** The doubles that the literals [0.1], [0.4], [0.5], [0.6] and [1.1] denote,
    and the double next above [0.5], which [0.5000000000000001] denotes. *)
Definition b64_0_1 : spec_float := S754_finite false 7205759403792794 (-56).
Definition b64_0_4 : spec_float := S754_finite false 7205759403792794 (-54).
Definition b64_0_5 : spec_float := S754_finite false 4503599627370496 (-53).
Definition b64_0_6 : spec_float := S754_finite false 5404319552844595 (-53).
Definition b64_1_1 : spec_float := S754_finite false 4953959590107546 (-52).
Definition b64_above_0_5 : spec_float := S754_finite false 4503599627370497 (-53).

(** The stores after a query with epsilon [0.5] on election ["election-1"] has
    been answered by the fresh server. *)
Definition sample_half_spent : State :=
  (run initial
       [ (env_at 300 "u11",
          PostAnalyticsDp (JStr "election-1") (Some sample_query)
                          (Some b64_0_5) (Some b64_0_1)) ]).1.

(** ** Further observations on the stores *)

(** The number of ledger records that reference the candidate stored under
    [key]. *)
Definition ledger_count (st : State) (key : JsVal) : nat :=
  size (filter (fun entry : Z * Vote.t => Vote.candidate_id entry.2 = key) (votes st)).

(** Every ledger record sits under its own identifier, which was handed out
    from 101 on, and references a registered candidate. *)
Definition ledger_consistent (st : State) : Prop :=
  forall id v, votes st !! id = Some v ->
               Vote.vote_id v = id /\ 101 <= id < nextVoteId st
               /\ is_Some (candidates st !! Vote.candidate_id v).

(** Every candidate is stored under its own identifier, and its counter is
    the number of ledger records that reference it. *)
Definition counters_match (st : State) : Prop :=
  forall key c, candidates st !! key = Some c ->
                Candidate.candidate_id c = key
                /\ Candidate.votes c = Z.of_nat (ledger_count st key).

(** Every encrypted ballot is stored under its own identifier with status
    ["accepted"], and no two stored ballots carry the same nullifier. *)
Definition nullifiers_distinct (st : State) : Prop :=
  forall k1 k2 b1 b2,
    encryptedBallots st !! k1 = Some b1 -> encryptedBallots st !! k2 = Some b2 ->
    Ballot.ballot_id b1 = k1 /\ Ballot.status b1 = "accepted"
    /\ (Ballot.nullifier b1 = Ballot.nullifier b2 -> k1 = k2).

(** The candidate [c'] is [c] with possibly more votes. *)
Definition candidate_kept (c c' : Candidate.t) : Prop :=
  Candidate.candidate_id c' = Candidate.candidate_id c
  /\ Candidate.name c' = Candidate.name c
  /\ Candidate.party c' = Candidate.party c
  /\ Candidate.votes c <= Candidate.votes c'.

(** The ledger holds exactly the identifiers handed out so far, 101 up to the
    counter. *)
Definition ledger_dense (st : State) : Prop :=
  101 <= nextVoteId st
  /\ Z.of_nat (size (votes st)) = nextVoteId st - 101
  /\ forall id, 101 <= id < nextVoteId st -> is_Some (votes st !! id).

(** Two encrypted ballots are accepted; the replay of the first nullifier
    between them is refused. *)
Definition sample_ballots : list (Env * Request) :=
  [ (env_at 100 "uuid-1", PostBallotsEncrypted sample_ballot);
    (env_at 105 "uuid-4", PostBallotsEncrypted sample_replay);
    (env_at 110 "uuid-2", PostBallotsEncrypted sample_other_ballot) ].

(** Every voter is stored under its own identifier and is at least 18. *)
Definition voters_consistent (st : State) : Prop :=
  forall key v, voters st !! key = Some v -> Voter.voter_id v = key /\ 18 <= Voter.age v.

(** * Properties *)

(** ** Field presence *)

Lemma falsy_zero : falsy (JNum 0) = true.
Proof. reflexivity. Qed.

Lemma falsy_empty_string : falsy (JStr "") = true.
Proof. reflexivity. Qed.

Lemma post_voters_missing st voter_id name age :
  falsy voter_id = true \/ falsy name = true \/ age = None ->
  post_voters st voter_id name age = (st, Next voter_fields_required).
Proof.
  unfold post_voters. intros [Hv | [Hn | ->]]; [| | reflexivity].
  - destruct age; [rewrite Hv |]; reflexivity.
  - destruct age; [rewrite Hn, orb_true_r |]; reflexivity.
Qed.

Lemma post_candidates_missing st candidate_id name party :
  falsy candidate_id = true \/ falsy name = true \/ falsy party = true ->
  post_candidates st candidate_id name party = (st, Next candidate_fields_required).
Proof.
  unfold post_candidates. intros [H | [H | H]]; rewrite H.
  - reflexivity.
  - rewrite orb_true_r. reflexivity.
  - rewrite orb_true_r. reflexivity.
Qed.

Lemma post_votes_missing env st voter_id candidate_id :
  falsy voter_id = true \/ falsy candidate_id = true ->
  post_votes env st voter_id candidate_id = (st, Next vote_fields_required).
Proof.
  unfold post_votes. intros [H | H]; rewrite H.
  - reflexivity.
  - rewrite orb_true_r. reflexivity.
Qed.

(** C10.  A field that is present but falsy counts as missing: a voter with
    [voter_id] 0 or with the empty string as [name], a candidate with
    [candidate_id] 0 or with an empty [name] or [party], and a vote with
    [voter_id] 0 or [candidate_id] 0 are all refused with the "... are
    required" error of their endpoint (status 409), whatever the other fields
    and the stores are, and the stores stay as they were. *)
Theorem falsy_fields_count_as_missing :
  (forall st name age,
      post_voters st (JNum 0) name age = (st, Next voter_fields_required))
  /\ (forall st voter_id age,
      post_voters st voter_id (JStr "") age = (st, Next voter_fields_required))
  /\ (forall st name party,
      post_candidates st (JNum 0) name party = (st, Next candidate_fields_required))
  /\ (forall st candidate_id party,
      post_candidates st candidate_id (JStr "") party = (st, Next candidate_fields_required))
  /\ (forall st candidate_id name,
      post_candidates st candidate_id name (JStr "") = (st, Next candidate_fields_required))
  /\ (forall env st candidate_id,
      post_votes env st (JNum 0) candidate_id = (st, Next vote_fields_required))
  /\ (forall env st voter_id,
      post_votes env st voter_id (JNum 0) = (st, Next vote_fields_required)).
Proof.
  split_and!; intros.
  - apply post_voters_missing. left. apply falsy_zero.
  - apply post_voters_missing. right. left. apply falsy_empty_string.
  - apply post_candidates_missing. left. apply falsy_zero.
  - apply post_candidates_missing. right. left. apply falsy_empty_string.
  - apply post_candidates_missing. right. right. apply falsy_empty_string.
  - apply post_votes_missing. left. apply falsy_zero.
  - apply post_votes_missing. right. apply falsy_zero.
Qed.

(** ** Allocation of vote identifiers *)

(** Case analysis on the branches of a handler. *)
Ltac handler_cases :=
  repeat (simplify_eq/=; try case_match); simplify_eq/=.

Lemma post_votes_failure env st voter_id candidate_id st' err :
  post_votes env st voter_id candidate_id = (st', Next err) ->
  st' = st
  /\ (err = vote_fields_required \/ err = voter_not_found voter_id
      \/ err = already_voted voter_id \/ err = candidate_not_found_on_cast candidate_id).
Proof.
  unfold post_votes. intros H. handler_cases; split; auto.
Qed.

Lemma post_votes_success env st voter_id candidate_id st' status body :
  post_votes env st voter_id candidate_id = (st', Json status body) ->
  exists voter candidate,
    voters st !! voter_id = Some voter
    /\ Voter.has_voted voter = false
    /\ candidates st !! candidate_id = Some candidate
    /\ status = 228
    /\ body = RVote (Vote.mk (nextVoteId st) voter_id candidate_id (now env))
    /\ st' = mkState
               (<[voter_id := Voter.mk (Voter.voter_id voter) (Voter.name voter)
                                       (Voter.age voter) true]> (voters st))
               (<[candidate_id := Candidate.mk (Candidate.candidate_id candidate)
                                               (Candidate.name candidate)
                                               (Candidate.party candidate)
                                               (Candidate.votes candidate + 1)]>
                  (candidates st))
               (<[nextVoteId st := Vote.mk (nextVoteId st) voter_id candidate_id (now env)]>
                  (votes st))
               (nextVoteId st + 1)
               (encryptedBallots st) (homomorphicTallies st)
               (dpAnalyticsBudget st) (rankedBallots st).
Proof.
  unfold post_votes. intros H. handler_cases. eauto 10.
Qed.

(** Only [POST /api/votes] answers with a [Vote]. *)
Lemma cast_vote_Some env st req st' r v :
  handle env st req = (st', r) -> cast_vote (req, r) = Some v ->
  exists voter_id candidate_id status,
    req = PostVotes voter_id candidate_id /\ r = Json status (RVote v).
Proof.
  intros _ H. destruct req, r as [? []|]; simplify_eq/=. eauto.
Qed.

(** A request other than a successful cast leaves the ledger, the counter and
    the candidates' counters alone. *)
Lemma handle_not_cast env st req st' r :
  handle env st req = (st', r) -> cast_vote (req, r) = None ->
  nextVoteId st' = nextVoteId st /\ votes st' = votes st
  /\ sum_votes (candidates st') = sum_votes (candidates st).
Proof.
  intros H Hc. destruct req; simpl in H.
  all: try (unfold post_voters, get_voter, put_voter, delete_voter, get_candidate_votes,
            get_votes_range, post_ballots_encrypted, post_results_homomorphic,
            post_analytics_dp, post_ballots_ranked in H; handler_cases; done).
  - unfold post_candidates in H. handler_cases; try done.
    split_and!; try done. unfold sum_votes.
    rewrite map_fold_insert_L; [simpl; lia | intros; lia |].
    match goal with H : has _ _ = false |- _ => unfold has in H;
      apply bool_decide_eq_false in H; by apply eq_None_not_Some end.
  - destruct r as [status body|err].
    + apply post_votes_success in H as (? & ? & ? & ? & ? & ? & ? & ?). simplify_eq/=.
    + apply post_votes_failure in H as [-> _]. done.
Qed.

Lemma sum_votes_insert_fresh m k c :
  m !! k = None -> sum_votes (<[k := c]> m) = Candidate.votes c + sum_votes m.
Proof.
  intros Hk. unfold sum_votes. rewrite map_fold_insert_L; [done | intros; lia | done].
Qed.

Lemma sum_votes_insert_existing m k c c' :
  m !! k = Some c ->
  sum_votes (<[k := c']> m) = sum_votes m + (Candidate.votes c' - Candidate.votes c).
Proof.
  intros Hk. rewrite <- (insert_delete_eq m k c').
  rewrite sum_votes_insert_fresh by apply lookup_delete_eq.
  unfold sum_votes at 2.
  rewrite (map_fold_delete_L _ _ k c m); [| intros; lia | done].
  fold (sum_votes (delete k m)). lia.
Qed.

Lemma initial_ledger_below_counter : ledger_below_counter initial.
Proof. intros id v H. simpl in H. by rewrite lookup_empty in H. Qed.

(** One request: either a successful cast, which takes the identifier
    [nextVoteId], adds one record and one vote, or anything else, which leaves
    ledger, counter and tallies alone. *)
Lemma handle_ledger env st req st' r :
  ledger_below_counter st ->
  handle env st req = (st', r) ->
  ledger_below_counter st'
  /\ match cast_vote (req, r) with
     | Some v =>
       Vote.vote_id v = nextVoteId st
       /\ nextVoteId st' = nextVoteId st + 1
       /\ size (votes st') = S (size (votes st))
       /\ sum_votes (candidates st') = sum_votes (candidates st) + 1
     | None =>
       nextVoteId st' = nextVoteId st
       /\ size (votes st') = size (votes st)
       /\ sum_votes (candidates st') = sum_votes (candidates st)
     end.
Proof.
  intros Hinv H. destruct (cast_vote (req, r)) as [v|] eqn:Hc.
  - destruct (cast_vote_Some _ _ _ _ _ _ H Hc) as (vid & cid & status & -> & ->).
    simpl in H. apply post_votes_success in H as (voter & cand & Hv & Hf & Hcand & _ & Hb & ->).
    simplify_eq/=.
    assert (votes st !! nextVoteId st = None) as Hfresh.
    { destruct (votes st !! nextVoteId st) eqn:E; [|done]. apply Hinv in E. lia. }
    split_and!; try done.
    + intros id v. simpl. intros [[-> _]|[_ Hl]]%lookup_insert_Some; [lia|].
      apply Hinv in Hl. lia.
    + by apply map_size_insert_None.
    + rewrite (sum_votes_insert_existing _ _ cand) by done. simpl. lia.
  - destruct (handle_not_cast _ _ _ _ _ H Hc) as (Hn & Hvs & Hs).
    split_and!; try done; [|by rewrite Hvs].
    intros id v. rewrite Hvs, Hn. apply Hinv.
Qed.

Lemma successful_casts_cons e log :
  successful_casts (e :: log)
  = match cast_vote e with
    | Some v => v :: successful_casts log
    | None => successful_casts log
    end.
Proof. reflexivity. Qed.

Lemma run_ledger trace : forall st st' log,
  ledger_below_counter st ->
  run st trace = (st', log) ->
  let n := length (successful_casts log) in
  ledger_below_counter st'
  /\ Vote.vote_id <$> successful_casts log = seqZ (nextVoteId st) (Z.of_nat n)
  /\ nextVoteId st' = nextVoteId st + Z.of_nat n
  /\ size (votes st') = (size (votes st) + n)%nat
  /\ sum_votes (candidates st') = sum_votes (candidates st) + Z.of_nat n.
Proof.
  induction trace as [|[env req] trace IH]; intros st st' log Hinv Hrun; simpl in Hrun.
  - simplify_eq/=. split_and!; try done; lia.
  - destruct (handle env st req) as [st1 r] eqn:Hh.
    destruct (run st1 trace) as [st2 log'] eqn:Hr. simplify_eq.
    destruct (handle_ledger _ _ _ _ _ Hinv Hh) as [Hinv1 Hstep].
    destruct (IH _ _ _ Hinv1 Hr) as (Hinv2 & Hids & Hn & Hsz & Hsum).
    cbv zeta in *. rewrite successful_casts_cons.
    destruct (cast_vote (req, r)) as [v|].
    + destruct Hstep as (Hid & Hn1 & Hsz1 & Hsum1).
      rewrite length_cons, fmap_cons.
      split_and!; try done; try lia.
      rewrite seqZ_cons by lia. rewrite Hid. f_equal.
      rewrite Hids, Hn1. f_equal. lia.
    + destruct Hstep as (Hn1 & Hsz1 & Hsum1).
      split_and!; try done; try lia.
      by rewrite Hids, Hn1.
Qed.

Lemma run_pair st trace : run st trace = ((run st trace).1, (run st trace).2).
Proof. apply surjective_pairing. Qed.

(** C8.  The counter [nextVoteId] starts at 101.  A cast that fails (with one
    of the four errors: missing field, voter not found, already voted,
    candidate not found) leaves the stores, hence the counter, as they were.
    A cast that succeeds returns the vote whose identifier is the current
    counter and advances the counter by one.  Hence, in the log of any run of
    the server from its start, the identifiers of the successful casts are
    101, 102, ... in that order: strictly increasing and never reused. *)
Theorem vote_ids_are_allocated_in_order :
  nextVoteId initial = 101
  /\ (forall env st voter_id candidate_id st' err,
        post_votes env st voter_id candidate_id = (st', Next err) ->
        st' = st
        /\ (err = vote_fields_required \/ err = voter_not_found voter_id
            \/ err = already_voted voter_id
            \/ err = candidate_not_found_on_cast candidate_id))
  /\ (forall env st voter_id candidate_id st' status body,
        post_votes env st voter_id candidate_id = (st', Json status body) ->
        exists v, body = RVote v
                  /\ Vote.vote_id v = nextVoteId st
                  /\ nextVoteId st' = nextVoteId st + 1)
  /\ (forall trace,
        let ids := Vote.vote_id <$> successful_casts (run initial trace).2 in
        ids = seqZ 101 (Z.of_nat (length ids))
        /\ nextVoteId (run initial trace).1 = 101 + Z.of_nat (length ids)
        /\ (forall i j a b,
              ids !! i = Some a -> ids !! j = Some b -> (i < j)%nat -> a < b)).
Proof.
  split_and!.
  - reflexivity.
  - apply post_votes_failure.
  - intros env st vid cid st' status body H.
    apply post_votes_success in H as (voter & cand & _ & _ & _ & _ & -> & ->).
    eexists. split_and!; reflexivity.
  - intros trace ids.
    destruct (run_ledger trace initial _ _ initial_ledger_below_counter (run_pair _ _))
      as (_ & Hids & Hn & _ & _).
    cbv zeta in *. fold ids in Hids, Hn. simpl in Hids, Hn.
    assert (length ids = length (successful_casts (run initial trace).2)) as Hlen
      by (unfold ids; apply length_fmap).
    rewrite <- Hlen in Hids, Hn.
    split_and!; try done.
    intros i j a b Hi Hj Hij. rewrite Hids in Hi, Hj.
    apply lookup_seqZ in Hi as [-> _]. apply lookup_seqZ in Hj as [-> _]. lia.
Qed.

(** C8 at work: the failed casts of [sample_election] leave the counter where
    it is, the first successful cast gets 101, and the run hands out 101, 102. *)
Lemma vote_ids_are_allocated_in_order_witness :
  (post_votes (env_at 40 "u3") sample_registered (JNum 3) (JNum 7)).1 = sample_registered
  /\ (exists v, (post_votes (env_at 50 "u4") sample_registered (JNum 1) (JNum 7)).2
                = Json 228 (RVote v)
                /\ Vote.vote_id v = 101)
  /\ Vote.vote_id <$> successful_casts (run initial sample_election).2 = [101; 102].
Proof.
  destruct vote_ids_are_allocated_in_order as (_ & Hfail & Hok & Hrun).
  split_and!.
  - assert (post_votes (env_at 40 "u3") sample_registered (JNum 3) (JNum 7)
            = (sample_registered, Next (voter_not_found (JNum 3)))) as E
      by (vm_compute; reflexivity).
    rewrite E. exact (proj1 (Hfail _ _ _ _ _ _ E)).
  - destruct (post_votes (env_at 50 "u4") sample_registered (JNum 1) (JNum 7))
      as [st' r] eqn:E.
    assert (r = Json 228 (RVote (Vote.mk 101 (JNum 1) (JNum 7) 50))) as ->
      by (vm_compute in E; congruence).
    destruct (Hok _ _ _ _ _ _ _ E) as (v & Hv & Hid & _).
    exists v. split; [by rewrite Hv | exact Hid].
  - destruct (Hrun sample_election) as (Hids & _ & _).
    rewrite Hids. vm_compute. reflexivity.
Defined.

(** C2.  After any sequence of requests served from the start of the server,
    the sum of the [votes] counters over the registered candidates equals the
    number of successfully cast votes, and this number equals the number of
    [Vote] records in the ledger. *)
Theorem tallies_match_the_ledger :
  forall trace,
    let st := (run initial trace).1 in
    let casts := successful_casts (run initial trace).2 in
    sum_votes (candidates st) = Z.of_nat (length casts)
    /\ length casts = size (votes st).
Proof.
  intros trace st casts.
  destruct (run_ledger trace initial _ _ initial_ledger_below_counter (run_pair _ _))
    as (_ & _ & _ & Hsize & Hsum).
  cbv zeta in *. fold st casts in Hsize, Hsum.
  change (sum_votes (candidates initial)) with 0 in Hsum.
  change (size (votes initial)) with 0%nat in Hsize.
  split; [lia | lia].
Qed.

(** ** One vote per voter *)



Lemma run_cons st env req trace :
  run st ((env, req) :: trace)
  = ((run (handle env st req).1 trace).1,
     (req, (handle env st req).2) :: (run (handle env st req).1 trace).2).
Proof.
  simpl. destruct (handle env st req) as [st1 r]. simpl.
  destruct (run st1 trace) as [st2 log]. reflexivity.
Qed.









(** ** The range query *)

(** Counting the values of a map that satisfy [P], on the list of values and
    on the map. *)
Lemma length_filter_values {K A} `{Countable K} (P : A -> Prop) `{forall x, Decision (P x)}
      (m : gmap K A) :
  length (filter P (values m)) = size (filter (fun entry : K * A => P entry.2) m).
Proof.
  unfold values. induction m as [|i x m Hi IH] using map_ind.
  - by rewrite map_to_list_empty, map_filter_empty, map_size_empty.
  - rewrite map_to_list_insert by done. rewrite fmap_cons, filter_cons. simpl.
    destruct (decide (P x)) as [HP|HP].
    + rewrite map_filter_insert_True by done.
      rewrite map_size_insert_None by (by rewrite map_lookup_filter_None; left).
      simpl. by rewrite IH.
    + rewrite map_filter_insert_False by done.
      rewrite delete_id by done. exact IH.
Qed.

Lemma reachable_ind (P : State -> Prop) :
  P initial ->
  (forall env st req, P st -> P (handle env st req).1) ->
  forall st, reachable st -> P st.
Proof.
  intros Hinit Hstep st [trace <-].
  generalize initial Hinit. clear Hinit.
  induction trace as [|[env req] trace IH]; intros st0 H0; [done|].
  rewrite run_cons. simpl. apply IH, Hstep, H0.
Qed.

Lemma reachable_candidate_ids_truthy st : reachable st -> candidate_ids_truthy st.
Proof.
  revert st. apply reachable_ind.
  - intros k c H. simpl in H. by rewrite lookup_empty in H.
  - intros env st req Hinv. unfold candidate_ids_truthy.
    destruct (handle env st req) as [st' r] eqn:H. simpl.
    destruct req; simpl in H.
    all: try (unfold post_voters, get_voter, put_voter, delete_voter, get_candidate_votes,
              get_votes_range, post_ballots_encrypted, post_results_homomorphic,
              post_analytics_dp, post_ballots_ranked in H; handler_cases; by eauto).
    + unfold post_candidates, falsy in H. handler_cases; eauto.
      intros k c [[<- _]|[_ Hl]]%lookup_insert_Some; [|by eauto].
      by destruct (truthy candidate_id).
    + destruct r as [status body|err].
      * apply post_votes_success in H as (voter & cand & _ & _ & Hc & _ & _ & ->).
        simpl. intros k c [[<- _]|[_ Hl]]%lookup_insert_Some; by eauto.
      * apply post_votes_failure in H as [-> _]. done.
Qed.

Lemma get_votes_range_count st id from to :
  length
    (filter (fun v => Vote.timestamp v >= from /\ Vote.timestamp v <= to)
            (filter (fun v => Vote.candidate_id v = JNum id) (values (votes st))))
  = votes_between st id from to.
Proof.
  rewrite list_filter_filter, length_filter_values. unfold votes_between.
  f_equal. apply map_filter_ext. intros i v _. simpl. intuition lia.
Qed.

Lemma votes_between_instant st id t : votes_between st id t t = votes_at st id t.
Proof.
  unfold votes_between, votes_at. f_equal.
  apply map_filter_ext. intros i v _. simpl. intuition lia.
Qed.

Lemma get_votes_range_found st id from to :
  candidate_ids_truthy st -> is_Some (candidates st !! JNum id) ->
  get_votes_range st (Some id) from to
  = match from, to with
    | Some f, Some t =>
      if t <? f then (st, Next invalid_interval)
      else (st, Json 235 (RRange id f t (votes_between st id f t)))
    | _, _ => (st, Next invalid_date_format)
    end.
Proof.
  intros Hinv [c Hc]. unfold get_votes_range.
  assert (num_falsy (Some id) = false) as ->.
  { apply Hinv in Hc. simpl in *. by destruct (id =? 0). }
  assert (has_num (Some id) (candidates st) = true) as ->.
  { simpl. unfold has. apply bool_decide_eq_true. eauto. }
  simpl. destruct from as [f|], to as [t|]; try reflexivity.
  destruct (t <? f); [reflexivity|]. by rewrite get_votes_range_count.
Qed.

(** C7.  On the stores of a running server, the range query for a candidate
    fails with NotFound (417) when no candidate is registered under the
    number (or the parameter is not a number); otherwise with InvalidInput
    (400) when a bound is not a date; otherwise with InvalidInterval (424)
    when [from > to]; and otherwise returns the number of the candidate's
    ledger votes whose timestamp lies in the closed interval [from, to].
    With [from = to] this is the number of the candidate's votes cast exactly
    at that instant. *)
Theorem range_query_counts_the_closed_interval :
  forall st, reachable st ->
    (forall candidate_id from to,
        get_num candidate_id (candidates st) = None ->
        get_votes_range st candidate_id from to = (st, Next (candidate_not_found candidate_id)))
    /\ (forall id from to,
        is_Some (candidates st !! JNum id) ->
        from = None \/ to = None ->
        get_votes_range st (Some id) from to = (st, Next invalid_date_format))
    /\ (forall id from to,
        is_Some (candidates st !! JNum id) ->
        from > to ->
        get_votes_range st (Some id) (Some from) (Some to) = (st, Next invalid_interval))
    /\ (forall id from to,
        is_Some (candidates st !! JNum id) ->
        from <= to ->
        get_votes_range st (Some id) (Some from) (Some to)
        = (st, Json 235 (RRange id from to (votes_between st id from to))))
    /\ (forall id t,
        is_Some (candidates st !! JNum id) ->
        get_votes_range st (Some id) (Some t) (Some t)
        = (st, Json 235 (RRange id t t (votes_at st id t)))).
Proof.
  intros st Hinv%reachable_candidate_ids_truthy. split_and!.
  - intros cid from to Hn. unfold get_votes_range.
    destruct cid as [id|]; [|reflexivity]. simpl in Hn.
    assert (has_num (Some id) (candidates st) = false) as ->.
    { simpl. unfold has. apply bool_decide_eq_false. rewrite Hn. by intros [? ?]. }
    by rewrite orb_true_r.
  - intros id from to Hc Hbad. rewrite get_votes_range_found by done.
    destruct Hbad as [-> | ->]; [done | by destruct from].
  - intros id from to Hc Hgt. rewrite get_votes_range_found by done.
    destruct (Z.ltb_spec to from); [done | lia].
  - intros id from to Hc Hle. rewrite get_votes_range_found by done.
    destruct (Z.ltb_spec to from); [lia | done].
  - intros id t Hc. rewrite get_votes_range_found by done.
    rewrite Z.ltb_irrefl. by rewrite votes_between_instant.
Qed.

(** C7 at work on the stores after [sample_election]. *)
Lemma range_query_counts_the_closed_interval_witness :
  get_votes_range sample_counted (Some 9) (Some 0) (Some 100)
  = (sample_counted, Next (ExpressError "candidate with id: 9 was not found" 417))
  /\ get_votes_range sample_counted (Some 7) None (Some 100)
     = (sample_counted, Next (ExpressError "Invalid date format" 400))
  /\ get_votes_range sample_counted (Some 7) (Some 80) (Some 50)
     = (sample_counted, Next (ExpressError "invalid interval: from > to" 424))
  /\ get_votes_range sample_counted (Some 7) (Some 50) (Some 80)
     = (sample_counted, Json 235 (RRange 7 50 80 2))
  /\ get_votes_range sample_counted (Some 7) (Some 51) (Some 80)
     = (sample_counted, Json 235 (RRange 7 51 80 1))
  /\ get_votes_range sample_counted (Some 7) (Some 50) (Some 50)
     = (sample_counted, Json 235 (RRange 7 50 50 1)).
Proof.
  assert (reachable sample_counted) as Hreach by (by exists sample_election).
  destruct (range_query_counts_the_closed_interval _ Hreach)
    as (Habsent & Hdate & Hinterval & Hcount & Hinstant).
  assert (is_Some (candidates sample_counted !! JNum 7)) as Hseven
    by (vm_compute; eauto).
  split_and!.
  - apply (Habsent (Some 9)). vm_compute. reflexivity.
  - apply Hdate; [exact Hseven | by left].
  - apply Hinterval; [exact Hseven | lia].
  - rewrite Hcount; [| exact Hseven | lia]. vm_compute. reflexivity.
  - rewrite Hcount; [| exact Hseven | lia]. vm_compute. reflexivity.
  - rewrite Hinstant; [| exact Hseven]. vm_compute. reflexivity.
Defined.

(** ** The homomorphic tally *)

(** Every request that passes the validation of the handler runs into the
    call of [candidates.map]. *)
Lemma post_results_homomorphic_valid env st election_id shares :
  truthy election_id = true -> shares <> [] ->
  existsb share_incomplete shares = false ->
  post_results_homomorphic env st election_id (Some shares)
  = (st, Next (TypeError "candidates.map is not a function")).
Proof.
  intros He Hs Hc. unfold post_results_homomorphic, falsy.
  destruct shares as [|s shares]; [done|]. by rewrite He, Hc.
Qed.

(** C3.  What the handler does on a valid aggregate request (one complete
    share, election ["election-1"], with a candidate registered): the call
    [candidates.map(...)] on the [Map] raises a [TypeError]; the error
    middleware answers with status 500, no tally list is returned and nothing
    is stored under the election. *)
Theorem homomorphic_tally_is_never_produced :
  let outcome :=
    post_results_homomorphic (env_at 90 "u8") sample_counted
                             (JStr "election-1") (Some [sample_share]) in
  outcome = (sample_counted, Next (TypeError "candidates.map is not a function"))
  /\ status_of outcome.2 = 500
  /\ homomorphicTallies outcome.1 !! JStr "election-1" = None.
Proof.
  intros outcome.
  assert (outcome = (sample_counted, Next (TypeError "candidates.map is not a function")))
    as E by (by apply post_results_homomorphic_valid).
  rewrite E. split_and!; [reflexivity | reflexivity | ].
  simpl. vm_compute. reflexivity.
Qed.

(** ** Queries over an empty list of buckets *)

Lemma currentBudget_initial election_id : currentBudget initial election_id = b64_zero.
Proof. unfold currentBudget. simpl. by rewrite lookup_empty. Qed.

(** C9.  What the handler does on a query whose [buckets] is the empty array
    (election ["election-1"], epsilon 0.5, delta 0.1, on the fresh server):
    [!query.buckets] is false for an array, so the request is not refused as
    MissingField; it is answered with status 200, an empty histogram and a
    remaining budget of 0.5, and epsilon is charged to the budget of the
    election. *)
Theorem empty_buckets_are_accepted :
  let outcome :=
    post_analytics_dp (env_at 90 "u8") initial (JStr "election-1")
                      (Some sample_empty_query) (Some b64_0_5) (Some b64_0_1) in
  outcome.2 = Json 200 (RHistogram (JStr "election-1") (JStr "histogram") (JStr "age_group")
                                   ∅ b64_0_5 b64_0_1 b64_0_5)
  /\ dpAnalyticsBudget outcome.1 !! JStr "election-1" = Some b64_0_5.
Proof.
  intros outcome. unfold outcome, post_analytics_dp.
  rewrite currentBudget_initial. split; [reflexivity|].
  vm_compute. reflexivity.
Qed.

(** ** Nullifiers *)

(** [Array.from(m.values()).some(f)] finds an entry of the map. *)
Lemma existsb_values {K A} `{Countable K} (f : A -> bool) (m : gmap K A) :
  existsb f (values m) = true <-> exists k x, m !! k = Some x /\ f x = true.
Proof.
  rewrite existsb_exists. unfold values. split.
  - intros (x & Hin & Hf). apply list_elem_of_In, list_elem_of_fmap in Hin as ([k x'] & -> & Hin).
    apply elem_of_map_to_list in Hin. eauto.
  - intros (k & x & Hl & Hf). exists x. split; [|done].
    apply list_elem_of_In, list_elem_of_fmap. exists (k, x). split; [done|].
    by apply elem_of_map_to_list.
Qed.

Lemma post_ballots_encrypted_anchored env st body u :
  anchored u (BallotBody.nullifier body) st ->
  (post_ballots_encrypted env st body = (st, Next ballot_fields_required)
   \/ post_ballots_encrypted env st body = (st, Next duplicate_nullifier))
  /\ (ballot_complete body = true ->
      post_ballots_encrypted env st body = (st, Next duplicate_nullifier)).
Proof.
  intros (b & Hb & Hn). unfold post_ballots_encrypted, ballot_complete, falsy.
  assert (existsb (fun b => strict_eq (Ballot.nullifier b) (BallotBody.nullifier body))
                  (values (encryptedBallots st)) = true) as ->.
  { apply existsb_values. exists ("b_" +:+ u), b. split; [done|].
    unfold strict_eq. by apply bool_decide_eq_true. }
  split.
  - case_match; [by left | by right].
  - intros Hc. repeat (apply andb_prop in Hc as [Hc ?]).
    repeat match goal with H : truthy _ = true |- _ => rewrite H; clear H end.
    reflexivity.
Qed.

Lemma post_ballots_encrypted_success env st body st' status reply :
  post_ballots_encrypted env st body = (st', Json status reply) ->
  ballot_complete body = true
  /\ st' = with_encryptedBallots st
             (<["b_" +:+ uuid env :=
                  Ballot.mk ("b_" +:+ uuid env) "accepted" (BallotBody.nullifier body) (now env)]>
                (encryptedBallots st))
  /\ status = 236
  /\ reply = RBallot (Ballot.mk ("b_" +:+ uuid env) "accepted"
                                (BallotBody.nullifier body) (now env)).
Proof.
  unfold post_ballots_encrypted, ballot_complete, falsy. intros H.
  repeat case_match; simplify_eq/=.
  repeat match goal with H : _ || _ = false |- _ => apply orb_false_elim in H as [H ?] end.
  repeat match goal with H : negb _ = false |- _ => apply negb_false_iff in H; rewrite H end.
  done.
Qed.

(** A stored ballot stays as it is as long as its identifier is not drawn again. *)
Lemma handle_anchored env st req u nullifier :
  anchored u nullifier st ->
  (forall body, req = PostBallotsEncrypted body -> uuid env <> u) ->
  anchored u nullifier (handle env st req).1.
Proof.
  intros (b & Hb & Hn) Hfresh. unfold anchored.
  destruct (handle env st req) as [st' r] eqn:H. simpl.
  destruct req; simpl in H.
  all: try (unfold post_voters, get_voter, put_voter, delete_voter, post_candidates,
            get_candidate_votes, get_votes_range, post_results_homomorphic,
            post_analytics_dp, post_ballots_ranked in H; handler_cases; by eauto).
  - destruct r as [status body|err].
    + apply post_votes_success in H as (voter & cand & _ & _ & _ & _ & _ & ->). eauto.
    + apply post_votes_failure in H as [-> _]. eauto.
  - destruct r as [status reply|err].
    + apply post_ballots_encrypted_success in H as (_ & -> & _). simpl.
      exists b. rewrite lookup_insert_ne; [done|].
      intros [= Hu]. by apply (Hfresh body).
    + unfold post_ballots_encrypted in H. handler_cases; eauto.
Qed.

Lemma run_anchored trace : forall st u nullifier,
  anchored u nullifier st -> uuid_fresh u trace ->
  anchored u nullifier (run st trace).1.
Proof.
  induction trace as [|[env req] trace IH]; intros st u n Ha Hf; [done|].
  rewrite run_cons. simpl. apply IH.
  - apply handle_anchored; [done|]. intros body ->. apply (Hf env body). left.
  - intros env' body Hin. apply (Hf env' body). by right.
Qed.

(** C5.  Once a submission has been accepted, any later submission carrying
    the same nullifier is refused, whatever its other five fields are: the
    stores stay as they are and the error is DuplicateNullifier (409), unless
    one of its six fields is missing, which is reported first (400).  Requests
    of any kind may be served in between; [uuidv4] is taken not to repeat the
    identifier of the accepted ballot. *)
Theorem a_nullifier_is_spent_once :
  forall env1 st body1 st1 status reply trace env2 body2,
    post_ballots_encrypted env1 st body1 = (st1, Json status reply) ->
    uuid_fresh (uuid env1) trace ->
    BallotBody.nullifier body2 = BallotBody.nullifier body1 ->
    let st2 := (run st1 trace).1 in
    (post_ballots_encrypted env2 st2 body2 = (st2, Next ballot_fields_required)
     \/ post_ballots_encrypted env2 st2 body2 = (st2, Next duplicate_nullifier))
    /\ (ballot_complete body2 = true ->
        post_ballots_encrypted env2 st2 body2 = (st2, Next duplicate_nullifier)).
Proof.
  intros env1 st body1 st1 status reply trace env2 body2 H1 Hfresh Hsame st2.
  apply post_ballots_encrypted_success in H1 as (_ & -> & _).
  apply (post_ballots_encrypted_anchored _ _ _ (uuid env1)).
  rewrite Hsame. apply run_anchored; [|done].
  eexists. simpl. rewrite lookup_insert_eq. eauto.
Qed.

(** C5 at work: [sample_ballot] is accepted, another ballot and a registration
    follow, and [sample_replay] is refused as a duplicate. *)
Lemma a_nullifier_is_spent_once_witness :
  let env1 := env_at 100 "uuid-1" in
  let st1 := (post_ballots_encrypted env1 initial sample_ballot).1 in
  let st2 := (run st1 sample_interlude).1 in
  post_ballots_encrypted (env_at 130 "uuid-4") st2 sample_replay
  = (st2, Next (ExpressError "duplicate nullifier: ballot already submitted" 409)).
Proof.
  intros env1 st1 st2.
  assert (post_ballots_encrypted env1 initial sample_ballot
          = (st1, Json 236 (RBallot (Ballot.mk "b_uuid-1" "accepted" (JStr "0x4e554c4c") 100))))
    as E by (vm_compute; reflexivity).
  assert (uuid_fresh (uuid env1) sample_interlude) as Hfresh.
  { intros env body Hin. unfold sample_interlude in Hin.
    apply elem_of_cons in Hin as [Hin|Hin]; [by injection Hin as -> _|].
    apply elem_of_cons in Hin as [Hin|Hin]; [discriminate Hin|].
    by apply elem_of_nil in Hin. }
  apply (a_nullifier_is_spent_once env1 initial sample_ballot st1 _ _ sample_interlude
                                   (env_at 130 "uuid-4") sample_replay E Hfresh);
    reflexivity.
Defined.

(** ** Ranked ballots *)

Lemma occurs_app c s1 s2 : occurs c (s1 +:+ s2) = occurs c s1 || occurs c s2.
Proof.
  induction s1 as [|a s1 IH]; simpl; [done|]. by rewrite IH, orb_assoc.
Qed.

(** The digits of a number never contain an underscore. *)
Lemma occurs_pretty_N_go x : forall s,
  occurs "_"%char (pretty_N_go x s) = occurs "_"%char s.
Proof.
  induction (N.lt_wf_0 x) as [x _ IH]. intros s.
  destruct (decide (0 < x)%N) as [Hx|Hx].
  - rewrite pretty_N_go_step by done. rewrite IH by (by apply N.div_lt).
    simpl. unfold pretty_N_char. by repeat case_match.
  - assert (x = 0%N) as -> by lia. by rewrite pretty_N_go_0.
Qed.

Lemma occurs_pretty_Z (z : Z) : occurs "_"%char (pretty z) = false.
Proof.
  assert (forall p : positive, occurs "_"%char (pretty p) = false) as Hpos.
  { intros p. unfold pretty, pretty_positive, pretty, pretty_N.
    case_decide; [done|]. by rewrite occurs_pretty_N_go. }
  destruct z as [|p|p]; unfold pretty, pretty_Z; [done | apply Hpos |].
  rewrite occurs_app, Hpos. done.
Qed.

(** Two strings that end in an underscore followed by an underscore-free part
    agree only if both parts agree. *)
Lemma append_nil s : "" +:+ s = s.
Proof. reflexivity. Qed.

Lemma append_cons x a s : String x a +:+ s = String x (a +:+ s).
Proof. reflexivity. Qed.

Lemma underscore_split a : forall c d1 d2,
  occurs "_"%char d1 = false -> occurs "_"%char d2 = false ->
  a +:+ "_" +:+ d1 = c +:+ "_" +:+ d2 -> a = c /\ d1 = d2.
Proof.
  induction a as [|x a IH]; intros [|y c] d1 d2 H1 H2 Heq;
    repeat (rewrite append_nil in Heq || rewrite append_cons in Heq).
  - by injection Heq as ->.
  - injection Heq as <- ->. rewrite occurs_app in H1. simpl in H1.
    by rewrite orb_true_r in H1.
  - injection Heq as -> <-. rewrite occurs_app in H2. simpl in H2.
    by rewrite orb_true_r in H2.
  - injection Heq as -> Heq. destruct (IH _ _ _ H1 H2 Heq) as [-> ->]. done.
Qed.

(** On the shapes of the data model the key determines the pair. *)
Lemma voterKey_inj e1 v1 e2 v2 :
  typed_pair e1 v1 -> typed_pair e2 v2 ->
  voterKey e1 v1 = voterKey e2 v2 -> e1 = e2 /\ v1 = v2.
Proof.
  intros [He1 Hv1] [He2 Hv2] Hk.
  destruct e1 as [| | |?|s1], e2 as [| | |?|s2]; try discriminate.
  destruct v1 as [| | |z1|?], v2 as [| | |z2|?]; try discriminate.
  unfold voterKey in Hk. simpl in Hk.
  apply underscore_split in Hk as [-> Hz]; [|apply occurs_pretty_Z..].
  by apply (inj pretty) in Hz as ->.
Qed.

Lemma post_ballots_ranked_valid env st election_id voter_id ranking ts :
  truthy election_id = true -> truthy voter_id = true -> ranking <> [] ->
  post_ballots_ranked env st election_id voter_id (Some ranking) (Some ts)
  = if bool_decide (is_Some (rankedBallots st !! voterKey election_id voter_id)) then
      (st, Next (duplicate_ballot election_id voter_id))
    else
      (with_rankedBallots st
         (<[voterKey election_id voter_id :=
              RankedBallot.mk ("rb_" +:+ pretty (random env 0 10000))
                              election_id voter_id ranking ts]> (rankedBallots st)),
       Json 200 (RRanked ("rb_" +:+ pretty (random env 0 10000)) "accepted")).
Proof.
  intros He Hv Hr. unfold post_ballots_ranked, falsy.
  destruct ranking; [done|]. by rewrite He, Hv.
Qed.

Lemma post_ballots_ranked_success env st election_id voter_id ranking ts st' status reply :
  post_ballots_ranked env st election_id voter_id ranking ts = (st', Json status reply) ->
  exists items t,
    ranking = Some items /\ ts = Some t
    /\ st' = with_rankedBallots st
               (<[voterKey election_id voter_id :=
                    RankedBallot.mk ("rb_" +:+ pretty (random env 0 10000))
                                    election_id voter_id items t]> (rankedBallots st)).
Proof.
  unfold post_ballots_ranked. intros H. handler_cases; eauto.
Qed.

Lemma reachable_ranked_keys_consistent st : reachable st -> ranked_keys_consistent st.
Proof.
  revert st. apply reachable_ind.
  - intros k b H. simpl in H. by rewrite lookup_empty in H.
  - intros env st req Hinv. unfold ranked_keys_consistent.
    destruct (handle env st req) as [st' r] eqn:H. simpl.
    destruct req; simpl in H.
    all: try (unfold post_voters, get_voter, put_voter, delete_voter, post_candidates,
              get_candidate_votes, get_votes_range, post_ballots_encrypted,
              post_results_homomorphic, post_analytics_dp in H; handler_cases; by eauto).
    + destruct r as [status body|err].
      * apply post_votes_success in H as (voter & cand & _ & _ & _ & _ & _ & ->). eauto.
      * apply post_votes_failure in H as [-> _]. eauto.
    + destruct r as [status reply|err].
      * apply post_ballots_ranked_success in H as (items & t & _ & _ & ->). simpl.
        intros k b [[<- <-]|[_ Hl]]%lookup_insert_Some; [done | by eauto].
      * unfold post_ballots_ranked in H. handler_cases; eauto.
Qed.

(** C6.  The handler looks for an earlier ballot of the pair under the key
    [`${election_id}_${voter_id}`], and keys made from different pairs can
    coincide.  After voter ["north"] of election ["2025_city"] has submitted,
    the first ballot of voter ["city_north"] in election ["2025"] is refused
    with DuplicateBallot (409) and nothing is stored for it, although no
    ballot is stored for that pair: the error message names a submission that
    was never made. *)
Lemma ranked_keys_collide :
  reachable sample_ranked_strings
  /\ ~ has_ranked_ballot sample_ranked_strings (JStr "2025") (JStr "city_north")
  /\ post_ballots_ranked (env_at 210 "u10") sample_ranked_strings
                         (JStr "2025") (JStr "city_north") (Some [JNum 2; JNum 3]) (Some 1800)
     = (sample_ranked_strings,
        Next (ExpressError
                "voter with id: city_north has already submitted a ranked ballot for election 2025"
                409)).
Proof.
  split_and!.
  - exists [ (env_at 200 "u9",
              PostBallotsRanked (JStr "2025_city") (JStr "north")
                                (Some [JNum 3; JNum 1; JNum 2]) (Some 1700)) ].
    rewrite run_cons. reflexivity.
  - intros (key & b & Hl & He & Hv).
    unfold sample_ranked_strings in Hl.
    rewrite post_ballots_ranked_valid in Hl by done. simpl in Hl.
    rewrite lookup_empty in Hl. simpl in Hl.
    apply lookup_insert_Some in Hl as [[_ <-]|[_ Hl]]; [discriminate He|].
    by rewrite lookup_empty in Hl.
  - vm_compute. reflexivity.
Qed.

(** X12.  Where the key does determine the pair.  On the stores of a running
    server, for a submission that passes validation: if a ballot is stored
    for the same
    [(election_id, voter_id)] pair, the submission is refused with
    DuplicateBallot (409), whatever its ranking.  When election identifiers
    are strings and voter identifiers are integers (in the request and in
    every stored ballot), the submission is refused with DuplicateBallot
    exactly when a ballot is stored for the same pair, and a submission for a
    pair without a stored ballot is accepted and then stored for that pair. *)
Theorem ranked_ballot_is_unique_per_pair :
  forall st, reachable st ->
  forall env election_id voter_id ranking ts,
    truthy election_id = true -> truthy voter_id = true -> ranking <> [] ->
    let outcome :=
      post_ballots_ranked env st election_id voter_id (Some ranking) (Some ts) in
    (has_ranked_ballot st election_id voter_id ->
     outcome = (st, Next (duplicate_ballot election_id voter_id)))
    /\ (typed_pair election_id voter_id -> ranked_store_typed st ->
        (outcome = (st, Next (duplicate_ballot election_id voter_id))
         <-> has_ranked_ballot st election_id voter_id)
        /\ (~ has_ranked_ballot st election_id voter_id ->
            exists ballot_id,
              outcome.2 = Json 200 (RRanked ballot_id "accepted")
              /\ has_ranked_ballot outcome.1 election_id voter_id)).
Proof.
  intros st Hkeys%reachable_ranked_keys_consistent env e v ranking ts He Hv Hr outcome.
  unfold outcome. rewrite post_ballots_ranked_valid by done.
  assert (has_ranked_ballot st e v -> is_Some (rankedBallots st !! voterKey e v)) as Hstored.
  { intros (key & b & Hl & <- & <-). rewrite <- (Hkeys _ _ Hl). eauto. }
  split.
  - intros Hhas. by rewrite bool_decide_eq_true_2 by auto.
  - intros Htyped Hstore.
    assert (is_Some (rankedBallots st !! voterKey e v) -> has_ranked_ballot st e v) as Hback.
    { intros [b Hl]. exists (voterKey e v), b. split; [done|].
      pose proof (Hkeys _ _ Hl) as Hk.
      apply voterKey_inj in Hk as [-> ->]; [done | exact Htyped | exact (Hstore _ _ Hl)]. }
    split.
    + case_bool_decide as Hsome.
      * split; [intros _; by apply Hback | done].
      * split; [intros [= _] | by intros ?%Hstored].
    + intros Hnone. rewrite bool_decide_eq_false_2 by auto. simpl.
      eexists. split; [reflexivity|].
      eexists _, _. split; [apply lookup_insert_eq | done].
Qed.

(** X12 at work with the shapes of the data model: after voter 12 of election
    ["city-rcv"] has submitted, a second ballot of voter 12 with another
    ranking is refused, and the first ballot of voter 13 is accepted. *)
Lemma ranked_ballot_is_unique_per_pair_witness :
  post_ballots_ranked (env_at 210 "u10") sample_ranked_typed (JStr "city-rcv") (JNum 12)
                      (Some [JNum 2; JNum 3; JNum 1]) (Some 1800)
  = (sample_ranked_typed,
     Next (ExpressError
             "voter with id: 12 has already submitted a ranked ballot for election city-rcv"
             409))
  /\ exists ballot_id,
      (post_ballots_ranked (env_at 210 "u10") sample_ranked_typed (JStr "city-rcv") (JNum 13)
                           (Some [JNum 2; JNum 3; JNum 1]) (Some 1800)).2
      = Json 200 (RRanked ballot_id "accepted").
Proof.
  assert (reachable sample_ranked_typed) as Hreach by (eexists; reflexivity).
  assert (rankedBallots sample_ranked_typed
          = {[ "city-rcv_12" :=
                 RankedBallot.mk "rb_0" (JStr "city-rcv") (JNum 12) [JNum 3; JNum 1; JNum 2] 1700 ]})
    as Hstore by (vm_compute; reflexivity).
  assert (ranked_store_typed sample_ranked_typed) as Htyped.
  { intros key b. rewrite Hstore. by intros [_ <-]%lookup_singleton_Some. }
  split.
  - apply (ranked_ballot_is_unique_per_pair _ Hreach); try done.
    eexists _, _. rewrite Hstore, lookup_singleton_eq. eauto.
  - destruct (ranked_ballot_is_unique_per_pair _ Hreach (env_at 210 "u10")
                (JStr "city-rcv") (JNum 13) [JNum 2; JNum 3; JNum 1] 1800)
      as [_ Hiff]; try done.
    destruct Hiff as [_ Hfirst]; [done | exact Htyped |].
    destruct Hfirst as (ballot_id & Hb & _); [|by eauto].
    intros (key & b & Hl & He & Hv). rewrite Hstore in Hl.
    apply lookup_singleton_Some in Hl as [_ <-]. discriminate Hv.
Defined.

(** ** Double-precision addition *)

(** The format: 53 bits of precision, exponents from -1074 up. *)
Lemma fexp_eq x : fexp 53 1024 x = Z.max (x - 53) (-1074).
Proof. reflexivity. Qed.

Lemma digits2_pos_bounds m :
  2 ^ (Z.pos (digits2_pos m) - 1) <= Z.pos m < 2 ^ Z.pos (digits2_pos m).
Proof.
  induction m as [p IH|p IH|]; simpl digits2_pos.
  - rewrite Pos2Z.inj_succ, (Pos2Z.inj_xI p).
    replace (Z.succ (Z.pos (digits2_pos p)) - 1) with (Z.succ (Z.pos (digits2_pos p) - 1)) by lia.
    rewrite !Z.pow_succ_r by lia.
    destruct IH as [IH1 IH2]. revert IH1 IH2.
    generalize (2 ^ (Z.pos (digits2_pos p) - 1)) (2 ^ Z.pos (digits2_pos p)). lia.
  - rewrite Pos2Z.inj_succ, (Pos2Z.inj_xO p).
    replace (Z.succ (Z.pos (digits2_pos p)) - 1) with (Z.succ (Z.pos (digits2_pos p) - 1)) by lia.
    rewrite !Z.pow_succ_r by lia.
    destruct IH as [IH1 IH2]. revert IH1 IH2.
    generalize (2 ^ (Z.pos (digits2_pos p) - 1)) (2 ^ Z.pos (digits2_pos p)). lia.
  - simpl. lia.
Qed.

Lemma digits2_pos_unique m k :
  2 ^ (k - 1) <= Z.pos m < 2 ^ k -> Z.pos (digits2_pos m) = k.
Proof.
  intros [Hlo Hhi]. pose proof (digits2_pos_bounds m) as [Hlo' Hhi'].
  set (d := Z.pos (digits2_pos m)) in *.
  destruct (Z.lt_trichotomy d k) as [Hlt|[Heq|Hgt]]; [|done|].
  - assert (2 ^ d <= 2 ^ (k - 1)) by (apply Z.pow_le_mono_r; lia). lia.
  - assert (0 <= k).
    { destruct (Z.lt_ge_cases k 0) as [Hneg|]; [|done]. rewrite Z.pow_neg_r in Hhi by done. lia. }
    assert (2 ^ k <= 2 ^ (d - 1)) by (apply Z.pow_le_mono_r; lia). lia.
Qed.

Lemma shr_1_m mrs : 0 <= shr_m mrs -> shr_m (shr_1 mrs) = shr_m mrs / 2.
Proof.
  destruct mrs as [[|[p|p|]|p] r s]; cbn [shr_1 shr_m]; intros H; try lia.
  - reflexivity.
  - apply Z.div_unique with 1; lia.
  - apply Z.div_unique with 0; lia.
  - reflexivity.
Qed.

Lemma pow2_xO p : 2 ^ Z.pos p~0 = 2 ^ Z.pos p * 2 ^ Z.pos p.
Proof.
  rewrite (Pos2Z.inj_xO p). replace (2 * Z.pos p) with (Z.pos p + Z.pos p) by lia.
  by rewrite Z.pow_add_r by lia.
Qed.

Lemma pow2_xI p : 2 ^ Z.pos p~1 = 2 * (2 ^ Z.pos p * 2 ^ Z.pos p).
Proof.
  rewrite (Pos2Z.inj_xI p). replace (2 * Z.pos p + 1) with (Z.succ (Z.pos p + Z.pos p)) by lia.
  by rewrite Z.pow_succ_r, Z.pow_add_r by lia.
Qed.

Lemma iter_pos_shr_1_m p : forall mrs,
  0 <= shr_m mrs -> shr_m (iter_pos shr_1 p mrs) = shr_m mrs / 2 ^ Z.pos p.
Proof.
  induction p as [p IH|p IH|]; intros mrs H; simpl iter_pos.
  - assert (0 <= shr_m (shr_1 mrs)) as H1 by (rewrite shr_1_m by done; apply Z.div_pos; lia).
    assert (0 <= shr_m (iter_pos shr_1 p (shr_1 mrs))) as H2
      by (rewrite IH by done; apply Z.div_pos; lia).
    rewrite IH, IH, shr_1_m by done.
    rewrite !Z.div_div by lia. by rewrite pow2_xI.
  - assert (0 <= shr_m (iter_pos shr_1 p mrs)) as H2
      by (rewrite IH by done; apply Z.div_pos; lia).
    rewrite IH, IH by done.
    rewrite !Z.div_div by lia. by rewrite pow2_xO.
  - rewrite shr_1_m by done. reflexivity.
Qed.

Lemma iter_xO m d : Z.pos (Pos.iter xO m d) = Z.pos m * 2 ^ Z.pos d.
Proof.
  induction d as [|d IH] using Pos.peano_ind.
  - simpl. lia.
  - rewrite Pos.iter_succ, Pos2Z.inj_xO, IH, Pos2Z.inj_succ, Z.pow_succ_r by lia. lia.
Qed.

Lemma round_nearest_even_cases mx lx :
  round_nearest_even mx lx = mx \/ round_nearest_even mx lx = mx + 1.
Proof. destruct lx as [|[]]; simpl; try destruct (Z.even mx); auto. Qed.

Lemma canonical_bounds m e :
  canonical_mantissa 53 1024 m e = true ->
  -1074 <= e /\ Z.pos m < 2 ^ 53 /\ (-1074 < e -> 2 ^ 52 <= Z.pos m).
Proof.
  unfold canonical_mantissa. rewrite Z.eqb_eq, fexp_eq. intros H.
  pose proof (digits2_pos_bounds m) as [Hlo Hhi].
  set (d := Z.pos (digits2_pos m)) in *.
  split_and!; [lia | |].
  - assert (2 ^ d <= 2 ^ 53) by (apply Z.pow_le_mono_r; lia). lia.
  - intros He. assert (d = 53) as Hd by lia. by rewrite Hd in Hlo.
Qed.

Lemma units_gt_0 m e : -1074 <= e -> 0 < units m e.
Proof. intros. unfold units. assert (0 < 2 ^ (e + 1074)) by (apply Z.pow_pos_nonneg; lia). lia. Qed.

Lemma pow2_split a b : 0 <= a -> 0 <= b -> 2 ^ (a + b) = 2 ^ a * 2 ^ b.
Proof. intros. by rewrite Z.pow_add_r. Qed.

(** A canonical mantissa is left alone by the shift to the format's exponent. *)
Lemma shr_fexp_canonical q e :
  canonical_mantissa 53 1024 q e = true ->
  shr_fexp 53 1024 (Z.pos q) e loc_Exact = (Build_shr_record (Z.pos q) false false, e).
Proof.
  unfold canonical_mantissa. rewrite Z.eqb_eq. intros H.
  unfold shr_fexp. cbn [Zdigits2 shr_record_of_loc]. rewrite H, Z.sub_diag. reflexivity.
Qed.

(** A carry out of the 53 bits moves the exponent up by one. *)
Lemma shr_fexp_carry e :
  -1074 <= e ->
  shr_fexp 53 1024 (2 ^ 53) e loc_Exact = (Build_shr_record (2 ^ 52) false false, e + 1).
Proof.
  intros He. unfold shr_fexp. change (Zdigits2 (2 ^ 53)) with 54. rewrite fexp_eq.
  replace (Z.max (54 + e - 53) (-1074) - e) with 1 by lia. reflexivity.
Qed.

(** A mantissa of more than 53 bits is cut down to its 53 leading bits. *)
Lemma shr_fexp_shift m e :
  -1074 <= e -> e < fexp 53 1024 (Z.pos (digits2_pos m) + e) ->
  exists mrs,
    shr_fexp 53 1024 (Z.pos m) e loc_Exact = (mrs, Z.pos (digits2_pos m) + e - 53)
    /\ shr_m mrs = Z.pos m / 2 ^ (Z.pos (digits2_pos m) - 53)
    /\ 53 < Z.pos (digits2_pos m).
Proof.
  intros He. rewrite fexp_eq. intros Hlt.
  unfold shr_fexp. cbn [Zdigits2 shr_record_of_loc]. rewrite fexp_eq.
  set (d := Z.pos (digits2_pos m)) in *.
  assert (Z.max (d + e - 53) (-1074) - e = d - 53) as -> by lia.
  destruct (d - 53) as [|p|p] eqn:Hp; [lia| |lia].
  eexists. cbn [shr]. split_and!.
  - f_equal. lia.
  - by rewrite iter_pos_shr_1_m.
  - lia.
Qed.

(** Cutting [n] bits off a sum rounds it down, and rounding down does not pass
    below a number of the format. *)
Lemma round_down_above m e n mx ex :
  -1074 <= e -> 0 < n -> 2 ^ 52 <= Z.pos m / 2 ^ n ->
  canonical_mantissa 53 1024 mx ex = true ->
  units mx ex <= units m e ->
  Z.pos mx * 2 ^ (ex + 1074) <= Z.pos m / 2 ^ n * 2 ^ (e + n + 1074).
Proof.
  intros He Hn Hlead (Hex & Hmx & _)%canonical_bounds. unfold units. intros Hle.
  assert (0 < 2 ^ n) as Hn2 by (apply Z.pow_pos_nonneg; lia).
  assert (0 < 2 ^ (e + 1074)) as He2 by (apply Z.pow_pos_nonneg; lia).
  assert (0 < 2 ^ (e + n + 1074)) as Hen2 by (apply Z.pow_pos_nonneg; lia).
  destruct (Z.le_gt_cases (e + n) ex) as [Hge|Hlt].
  - set (k := ex - (e + n)).
    assert (0 < 2 ^ k) as Hk2 by (apply Z.pow_pos_nonneg; lia).
    replace (ex + 1074) with (k + (e + n + 1074)) by lia.
    rewrite (pow2_split k) by lia. rewrite Z.mul_assoc.
    apply Z.mul_le_mono_nonneg_r; [lia|].
    apply Z.div_le_lower_bound; [done|].
    replace (ex + 1074) with (k + n + (e + 1074)) in Hle by lia.
    rewrite (pow2_split (k + n)), (pow2_split k) in Hle by lia.
    rewrite !Z.mul_assoc in Hle. apply Z.mul_le_mono_pos_r in Hle; [lia | done].
  - assert (2 ^ (ex + 1074) <= 2 ^ (e + n - 1 + 1074)) as Hpow by (apply Z.pow_le_mono_r; lia).
    replace (e + n + 1074) with (Z.succ (e + n - 1 + 1074)) by lia.
    rewrite Z.pow_succ_r by lia.
    assert (0 < 2 ^ (ex + 1074)) by (apply Z.pow_pos_nonneg; lia).
    change (2 ^ 53) with 9007199254740992 in Hmx.
    change (2 ^ 52) with 4503599627370496 in Hlead.
    nia.
Qed.

Lemma binary_round_aux_pos m e :
  -1074 <= e -> e <= fexp 53 1024 (Z.pos (digits2_pos m) + e) ->
  binary_round_aux 53 1024 false (Z.pos m) e loc_Exact = S754_infinity false
  \/ exists m' e',
       binary_round_aux 53 1024 false (Z.pos m) e loc_Exact = S754_finite false m' e'
       /\ bounded 53 1024 m' e' = true
       /\ forall mx ex, canonical_mantissa 53 1024 mx ex = true ->
                        units mx ex <= units m e -> units mx ex <= units m' e'.
Proof.
  intros He [Hlt|Heq]%Z.le_lteq.
  - destruct (shr_fexp_shift m e He Hlt) as (mrs & Hs & Hm & Hd).
    pose proof (digits2_pos_bounds m) as [Hlo Hhi].
    set (d := Z.pos (digits2_pos m)) in *.
    assert (0 < 2 ^ (d - 53)) as Hn2 by (apply Z.pow_pos_nonneg; lia).
    assert (2 ^ 52 <= shr_m mrs < 2 ^ 53) as [Hm1 Hm2].
    { rewrite Hm. split.
      - apply Z.div_le_lower_bound; [done|]. rewrite <- pow2_split by lia.
        by replace (d - 53 + 52) with (d - 1) by lia.
      - apply Z.div_lt_upper_bound; [done|]. rewrite <- pow2_split by lia.
        by replace (d - 53 + 53) with d by lia. }
    unfold binary_round_aux. rewrite Hs.
    set (mr := round_nearest_even (shr_m mrs) (loc_of_shr_record mrs)).
    assert (shr_m mrs <= mr <= shr_m mrs + 1) as [Hr1 Hr2]
      by (destruct (round_nearest_even_cases (shr_m mrs) (loc_of_shr_record mrs)); lia).
    assert (forall mx ex, canonical_mantissa 53 1024 mx ex = true ->
              units mx ex <= units m e -> units mx ex <= mr * 2 ^ (d + e - 53 + 1074)) as Hmono.
    { intros mx ex Hc Hle.
      pose proof (round_down_above m e (d - 53) mx ex He ltac:(lia) ltac:(by rewrite <- Hm) Hc Hle)
        as Hdown.
      replace (e + (d - 53) + 1074) with (d + e - 53 + 1074) in Hdown by lia.
      rewrite <- Hm in Hdown.
      assert (0 < 2 ^ (d + e - 53 + 1074)) by (apply Z.pow_pos_nonneg; lia).
      unfold units. nia. }
    clearbody mr. destruct mr as [|q|q]; [lia | | lia].
    change (2 ^ 52) with 4503599627370496 in *. change (2 ^ 53) with 9007199254740992 in *.
    destruct (Z.eq_dec (Z.pos q) 9007199254740992) as [Hq|Hq].
    + rewrite Hq, shr_fexp_carry by lia. cbn [shr_m].
      destruct (d + e - 53 + 1 <=? 1024 - 53) eqn:Hmax; [right|by left].
      eexists _, _. split_and!; [done | |].
      * unfold bounded. rewrite Hmax, andb_true_r. unfold canonical_mantissa.
        apply Z.eqb_eq. rewrite fexp_eq. simpl digits2_pos. lia.
      * intros mx ex Hc Hle. specialize (Hmono mx ex Hc Hle). rewrite Hq in Hmono.
        unfold units in *.
        replace (d + e - 53 + 1 + 1074) with (Z.succ (d + e - 53 + 1074)) by lia.
        rewrite Z.pow_succ_r by lia. lia.
    + assert (canonical_mantissa 53 1024 q (d + e - 53) = true) as Hcan.
      { unfold canonical_mantissa. apply Z.eqb_eq. rewrite fexp_eq.
        rewrite (digits2_pos_unique q 53); [lia|].
        change (2 ^ (53 - 1)) with 4503599627370496. change (2 ^ 53) with 9007199254740992. lia. }
      rewrite shr_fexp_canonical by done. cbn [shr_m].
      destruct (d + e - 53 <=? 1024 - 53) eqn:Hmax; [right|by left].
      eexists _, _. split_and!; [done | |].
      * unfold bounded. by rewrite Hmax, Hcan.
      * intros mx ex Hc Hle. exact (Hmono mx ex Hc Hle).
  - assert (canonical_mantissa 53 1024 m e = true) as Hcan
      by (unfold canonical_mantissa; by apply Z.eqb_eq).
    unfold binary_round_aux. rewrite shr_fexp_canonical by done.
    cbn [shr_m loc_of_shr_record round_nearest_even].
    rewrite shr_fexp_canonical by done. cbn [shr_m].
    destruct (e <=? 1024 - 53) eqn:Hmax; [right|by left].
    eexists _, _. split_and!; [done | | done].
    unfold bounded. by rewrite Hmax, Hcan.
Qed.

Lemma binary_round_pos m e :
  -1074 <= e ->
  binary_round 53 1024 false m e = S754_infinity false
  \/ exists m' e',
       binary_round 53 1024 false m e = S754_finite false m' e'
       /\ bounded 53 1024 m' e' = true
       /\ forall mx ex, canonical_mantissa 53 1024 mx ex = true ->
                        units mx ex <= units m e -> units mx ex <= units m' e'.
Proof.
  intros He. unfold binary_round, shl_align.
  pose proof (digits2_pos_bounds m) as [Hlo Hhi].
  set (d := Z.pos (digits2_pos m)) in *.
  destruct (fexp 53 1024 (d + e) - e) as [|p|p] eqn:Hp.
  - apply binary_round_aux_pos; [done | fold d; lia].
  - apply binary_round_aux_pos; [done | fold d; lia].
  - rewrite fexp_eq in *.
    assert (0 < 2 ^ Z.pos p) as Hp2 by (apply Z.pow_pos_nonneg; lia).
    assert (Z.pos (digits2_pos (Pos.iter xO m p)) = d + Z.pos p) as Hd.
    { apply digits2_pos_unique. rewrite iter_xO.
      replace (d + Z.pos p - 1) with (d - 1 + Z.pos p) by lia.
      rewrite !pow2_split by lia. nia. }
    destruct (binary_round_aux_pos (Pos.iter xO m p) (Z.max (d + e - 53) (-1074)))
      as [Hinf|(m' & e' & Hr & Hb & Hmono)]; [lia | rewrite Hd, fexp_eq; lia | by left |].
    right. exists m', e'. split_and!; [done | done |].
    intros mx ex Hc Hle. apply Hmono; [done|].
    unfold units in *. rewrite iter_xO.
    replace (e + 1074) with (Z.pos p + (Z.max (d + e - 53) (-1074) + 1074)) in Hle by lia.
    rewrite (pow2_split (Z.pos p)) in Hle by lia. lia.
Qed.

Lemma shl_align_units m e ez :
  -1074 <= ez -> ez <= e -> Z.pos (shl_align m e ez).1 * 2 ^ (ez + 1074) = units m e.
Proof.
  intros Hz Hle. unfold shl_align, units.
  destruct (ez - e) as [|p|p] eqn:Hp; [|lia|]; simpl.
  - by replace ez with e by lia.
  - rewrite iter_xO. replace (e + 1074) with (Z.pos p + (ez + 1074)) by lia.
    rewrite (pow2_split (Z.pos p)) by lia. lia.
Qed.

(** The sum of two positive doubles is [+Infinity] or a positive double that
    is below neither of them. *)
Lemma SFadd_pos mx ex my ey :
  canonical_mantissa 53 1024 mx ex = true -> canonical_mantissa 53 1024 my ey = true ->
  SFadd 53 1024 (S754_finite false mx ex) (S754_finite false my ey) = S754_infinity false
  \/ exists m e,
       SFadd 53 1024 (S754_finite false mx ex) (S754_finite false my ey) = S754_finite false m e
       /\ bounded 53 1024 m e = true
       /\ units mx ex <= units m e /\ units my ey <= units m e.
Proof.
  intros Hx Hy.
  pose proof (canonical_bounds _ _ Hx) as (Hex & _). pose proof (canonical_bounds _ _ Hy) as (Hey & _).
  unfold SFadd. cbn [cond_Zopp]. set (ez := Z.min ex ey).
  pose proof (shl_align_units mx ex ez ltac:(lia) ltac:(lia)) as Ux.
  pose proof (shl_align_units my ey ez ltac:(lia) ltac:(lia)) as Uy.
  set (a := (shl_align mx ex ez).1) in *. set (b := (shl_align my ey ez).1) in *.
  change (Z.pos a + Z.pos b) with (Z.pos (a + b)). cbn [binary_normalize].
  destruct (binary_round_pos (a + b) ez) as [Hinf|(m & e & Hr & Hb & Hmono)];
    [lia | by left | right].
  pose proof (units_gt_0 mx ex Hex). pose proof (units_gt_0 my ey Hey).
  assert (units (a + b) ez = units mx ex + units my ey) as Hsum.
  { unfold units at 1. rewrite Pos2Z.inj_add. lia. }
  exists m, e. split_and!; [done | done | |]; apply Hmono; try done; lia.
Qed.

(** On doubles in canonical form the order of [<=] is the order of the values. *)
Lemma SFleb_units m1 e1 m2 e2 :
  canonical_mantissa 53 1024 m1 e1 = true -> canonical_mantissa 53 1024 m2 e2 = true ->
  units m1 e1 <= units m2 e2 ->
  SFleb (S754_finite false m1 e1) (S754_finite false m2 e2) = true.
Proof.
  intros (He1 & Hm1 & Hn1)%canonical_bounds (He2 & Hm2 & Hn2)%canonical_bounds.
  unfold units, SFleb, SFcompare. intros Hle.
  change (2 ^ 52) with 4503599627370496 in *. change (2 ^ 53) with 9007199254740992 in *.
  destruct (Z.compare_spec e1 e2) as [->|Hlt|Hgt]; [|done|].
  - assert (0 < 2 ^ (e2 + 1074)) by (apply Z.pow_pos_nonneg; lia).
    change (Pos.compare_cont Eq m1 m2) with (m1 ?= m2)%positive.
    destruct (Pos.compare_spec m1 m2) as [|?|Hgt]; [done | done | nia].
  - exfalso. specialize (Hn1 ltac:(lia)).
    assert (0 < 2 ^ (e2 + 1074)) by (apply Z.pow_pos_nonneg; lia).
    assert (2 * 2 ^ (e2 + 1074) <= 2 ^ (e1 + 1074)).
    { rewrite <- Z.pow_succ_r by lia. apply Z.pow_le_mono_r; lia. }
    nia.
Qed.

(** ** The differential-privacy budget *)

Lemma SFcompare_antisym x y : SFcompare y x = CompOpp <$> SFcompare x y.
Proof.
  destruct x as [[]|[]| |[] m1 e1], y as [[]|[]| |[] m2 e2]; try reflexivity; simpl.
  - rewrite (Z.compare_antisym e1 e2). destruct (e1 ?= e2); simpl; try done.
    by rewrite (Pos.compare_cont_antisym m1 m2 Eq).
  - rewrite (Z.compare_antisym e1 e2). destruct (e1 ?= e2); simpl; try done.
    by rewrite (Pos.compare_cont_antisym m1 m2 Eq).
Qed.

Lemma b64_le_not_lt x y : b64_le x y = true -> b64_lt y x = false.
Proof.
  unfold b64_le, b64_lt, SFleb, SFltb. rewrite (SFcompare_antisym x y).
  by destruct (SFcompare x y) as [[]|].
Qed.

Lemma b64_lt_not_le x y : b64_lt x y = true -> b64_le y x = false.
Proof.
  unfold b64_le, b64_lt, SFleb, SFltb. rewrite (SFcompare_antisym x y).
  by destruct (SFcompare x y) as [[]|].
Qed.

(** Between numbers the comparisons are total. *)
Lemma b64_not_gt_le x y :
  x <> S754_nan -> y <> S754_nan -> b64_gt x y = false -> b64_le x y = true.
Proof.
  unfold b64_le, b64_gt, SFleb, SFltb. rewrite (SFcompare_antisym x y). intros Hx Hy.
  destruct x as [[]|[]| |[] m1 e1], y as [[]|[]| |[] m2 e2]; try done; simpl;
    by destruct (e1 ?= e2), (Pos.compare_cont Eq m1 m2).
Qed.

Lemma post_analytics_dp_valid env st election_id query epsilon delta :
  dp_valid election_id query epsilon delta ->
  post_analytics_dp env st election_id (Some query) (Some epsilon) (Some delta)
  = if b64_gt (b64_plus (currentBudget st election_id) epsilon) b64_one then
      (st, Next budget_exceeded)
    else
      match DpQuery.buckets query with
      | BucketsValue _ => (st, Next (TypeError "query.buckets.forEach is not a function"))
      | BucketsArray buckets =>
        (with_dpAnalyticsBudget st
           (<[election_id := b64_plus (currentBudget st election_id) epsilon]>
              (dpAnalyticsBudget st)),
         Json 200 (RHistogram election_id (DpQuery.type query) (DpQuery.dimension query)
                              (fill_histogram env 0 buckets ∅) epsilon delta
                              (b64_minus maxBudget
                                         (b64_plus (currentBudget st election_id) epsilon))))
      end.
Proof.
  intros (He & Ht & Hd & [items Hb] & Heps & Hd0 & Hd1).
  unfold post_analytics_dp, falsy. rewrite He, Ht, Hd, Hb. cbn [negb orb buckets_falsy].
  rewrite (b64_lt_not_le _ _ Heps).
  unfold b64_gt at 1. fold (b64_lt b64_one delta).
  rewrite (b64_le_not_lt _ _ Hd0), (b64_le_not_lt _ _ Hd1). reflexivity.
Qed.

Lemma post_analytics_dp_success env st election_id query epsilon delta st' status reply :
  post_analytics_dp env st election_id query epsilon delta = (st', Json status reply) ->
  exists eps,
    epsilon = Some eps /\ b64_le eps b64_zero = false
    /\ b64_gt (b64_plus (currentBudget st election_id) eps) b64_one = false
    /\ status = 200
    /\ st' = with_dpAnalyticsBudget st
               (<[election_id := b64_plus (currentBudget st election_id) eps]>
                  (dpAnalyticsBudget st)).
Proof.
  unfold post_analytics_dp, maxBudget. intros H. handler_cases.
  eexists. by split_and!.
Qed.

Lemma spent_insert_eq st election_id amount :
  spent (with_dpAnalyticsBudget st (<[election_id := amount]> (dpAnalyticsBudget st))) election_id
  = amount.
Proof. unfold spent. simpl. by rewrite lookup_insert_eq. Qed.

Lemma spent_insert_ne st election_id amount other :
  other <> election_id ->
  spent (with_dpAnalyticsBudget st (<[election_id := amount]> (dpAnalyticsBudget st))) other
  = spent st other.
Proof. intros Hne. unfold spent. simpl. by rewrite lookup_insert_ne. Qed.

Lemma post_analytics_dp_failure env st election_id query epsilon delta st' err :
  post_analytics_dp env st election_id query epsilon delta = (st', Next err) -> st' = st.
Proof. unfold post_analytics_dp. intros H. by handler_cases. Qed.

(** Only the differential-privacy handler writes to the budget. *)
Lemma handle_budget env st req :
  dpAnalyticsBudget (handle env st req).1 = dpAnalyticsBudget st
  \/ exists election_id query delta eps,
       req = PostAnalyticsDp election_id query (Some eps) delta
       /\ b64_le eps b64_zero = false
       /\ b64_gt (b64_plus (currentBudget st election_id) eps) b64_one = false
       /\ (handle env st req).1
          = with_dpAnalyticsBudget st
              (<[election_id := b64_plus (currentBudget st election_id) eps]>
                 (dpAnalyticsBudget st)).
Proof.
  destruct (handle env st req) as [st' r] eqn:H. simpl.
  destruct req; simpl in H.
  all: try (left; unfold post_voters, get_voter, put_voter, delete_voter, post_candidates,
            get_candidate_votes, get_votes_range, post_ballots_encrypted,
            post_results_homomorphic, post_ballots_ranked in H; handler_cases; done).
  - left. destruct r as [status body|err].
    + by apply post_votes_success in H as (voter & cand & _ & _ & _ & _ & _ & ->).
    + by apply post_votes_failure in H as [-> _].
  - destruct r as [status body|err].
    + right. apply post_analytics_dp_success in H as (eps & -> & Hpos & Hle & _ & ->).
      eauto 10.
    + left. by apply post_analytics_dp_failure in H as ->.
Qed.

Lemma bounded_canonical m e :
  bounded 53 1024 m e = true -> canonical_mantissa 53 1024 m e = true.
Proof. unfold bounded. by intros [? _]%andb_true_iff. Qed.

(** The order of [<=] on zero and the positive doubles is the order of their
    values. *)
Lemma b64_units_le x y :
  b64_nonneg x -> b64_nonneg y -> b64_units x <= b64_units y -> b64_le x y = true.
Proof.
  intros [->|(m1 & e1 & -> & H1%bounded_canonical)] [->|(m2 & e2 & -> & H2%bounded_canonical)];
    simpl; intros Hle; try done.
  - pose proof (canonical_bounds _ _ H1) as [He _].
    pose proof (units_gt_0 m1 e1 He). lia.
  - by apply SFleb_units.
Qed.

(** On stores that keep the invariant the handler reads the stored spend. *)
Lemma budget_bounded_current st election_id :
  budget_bounded st ->
  currentBudget st election_id = spent st election_id
  /\ b64_nonneg (spent st election_id)
  /\ b64_le (spent st election_id) b64_one = true.
Proof.
  intros Hinv. unfold currentBudget, spent.
  destruct (dpAnalyticsBudget st !! election_id) as [a|] eqn:E.
  - destruct (Hinv _ _ E) as (Hv & Hpos & Hle).
    destruct a as [[]|[]| |[] m e]; try done.
    split_and!; [done | | done]. right. eauto.
  - split_and!; [done | by left | done].
Qed.

(** The sum that the handler accepts: a positive double in canonical form, at
    most 1 and not below the spend it started from. *)
Lemma accepted_sum current eps :
  b64_nonneg current -> json_number eps = true -> b64_le eps b64_zero = false ->
  b64_gt (b64_plus current eps) b64_one = false ->
  exists m e,
    b64_plus current eps = S754_finite false m e
    /\ bounded 53 1024 m e = true
    /\ b64_le (b64_plus current eps) b64_one = true
    /\ b64_units current <= units m e.
Proof.
  intros Hcur Hj Hpos Hgt.
  destruct eps as [[]|[]| |[] me ee]; try done.
  - destruct Hcur as [->|(m & e & -> & _)]; done.
  - assert (bounded 53 1024 me ee = true) as Hb by (by apply andb_true_iff in Hj as [? _]).
    pose proof (bounded_canonical _ _ Hb) as Hc.
    destruct Hcur as [->|(m & e & -> & Hbm)].
    + exists me, ee. split_and!; [done | done | by apply b64_not_gt_le |].
      pose proof (canonical_bounds _ _ Hc) as [He _].
      pose proof (units_gt_0 me ee He). simpl. lia.
    + destruct (SFadd_pos m e me ee (bounded_canonical _ _ Hbm) Hc)
        as [Hinf|(m' & e' & Hsum & Hb' & Hle & _)]; unfold b64_plus in *.
      * by rewrite Hinf in Hgt.
      * exists m', e'. split_and!; [done | done | | done].
        apply b64_not_gt_le; [by rewrite Hsum | done | done].
Qed.

Lemma handle_budget_step env st req :
  budget_bounded st -> json_request req ->
  budget_bounded (handle env st req).1
  /\ forall election_id,
       b64_units (spent st election_id) <= b64_units (spent (handle env st req).1 election_id).
Proof.
  intros Hinv Hreq.
  destruct (handle_budget env st req) as [Heq | (e & query & delta & eps & -> & Hpos & Hgt & ->)].
  - split; [intros e a; rewrite Heq; apply Hinv | intros e; unfold spent; rewrite Heq; lia].
  - simpl in Hreq. destruct (budget_bounded_current st e Hinv) as (Hcur & Hshape & _).
    rewrite Hcur in *.
    destruct (accepted_sum _ eps Hshape Hreq Hpos Hgt) as (m & ex & Hsum & Hb & Hle & Hu).
    split.
    + intros e' a. simpl. intros [[<- <-]|[_ Hl]]%lookup_insert_Some; [|by eauto].
      rewrite Hsum in *. by split_and!.
    + intros e'. destruct (decide (e' = e)) as [->|Hne].
      * by rewrite spent_insert_eq, Hsum.
      * rewrite spent_insert_ne by done. lia.
Qed.

Lemma initial_budget_bounded : budget_bounded initial.
Proof. intros e a H. simpl in H. by rewrite lookup_empty in H. Qed.

Lemma run_budget trace : forall st,
  budget_bounded st -> json_numbers trace ->
  budget_bounded (run st trace).1
  /\ forall election_id,
       b64_units (spent st election_id) <= b64_units (spent (run st trace).1 election_id).
Proof.
  induction trace as [|[env req] trace IH]; intros st Hinv Hj.
  - simpl. split; [done | intros; lia].
  - rewrite run_cons. apply Forall_cons_1 in Hj as [Hreq Hj].
    destruct (handle_budget_step env st req Hinv Hreq) as [Hinv' Hmono].
    destruct (IH _ Hinv' Hj) as [Hinv'' Hmono']. simpl.
    split; [done|]. intros e. specialize (Hmono e). specialize (Hmono' e). lia.
Qed.

Lemma run_app st trace more : (run st (trace ++ more)).1 = (run (run st trace).1 more).1.
Proof.
  revert st. induction trace as [|[env req] trace IH]; intros st; [done|].
  rewrite <- app_comm_cons, !run_cons. simpl. apply IH.
Qed.

Lemma dp_valid_epsilon election_id query epsilon epsilon' delta :
  dp_valid election_id query epsilon delta -> b64_gt epsilon' b64_zero = true ->
  dp_valid election_id query epsilon' delta.
Proof. intros (? & ? & ? & ? & _ & ? & ?) ?. by repeat split. Qed.

Lemma currentBudget_insert st election_id amount :
  b64_falsy amount = false ->
  currentBudget
    (with_dpAnalyticsBudget st (<[election_id := amount]> (dpAnalyticsBudget st))) election_id
  = amount.
Proof. intros H. unfold currentBudget. simpl. by rewrite lookup_insert_eq, H. Qed.

(** C4, as stated, fails: the handler adds in double precision, and the
    rounded sum decides.  After a query with epsilon 0.5 on ["election-1"]
    the stored spend is 0.5.  The next query asks for the double next above
    0.5 (what [0.5000000000000001] denotes, 1/2 + 1/2^53): spend plus epsilon
    exceeds 1, but their double-precision sum is exactly 1.0, so the query is
    answered (200) and not rejected, and the stored spend becomes 1.0, which
    is not the spend before plus the requested epsilon. *)
Lemma budget_sum_is_rounded :
  let e := JStr "election-1" in
  let outcome :=
    post_analytics_dp (env_at 310 "u12") sample_half_spent e
                      (Some sample_query) (Some b64_above_0_5) (Some b64_0_1) in
  reachable sample_half_spent
  /\ spent sample_half_spent e = b64_0_5
  /\ dp_valid e sample_query b64_above_0_5 b64_0_1
  /\ (b64_to_Q b64_0_5 == 1 # 2)%Q
  /\ (b64_to_Q b64_above_0_5 == (1 # 2) + (1 # 2 ^ 53))%Q
  /\ (b64_to_Q b64_one == 1)%Q
  /\ (1 < b64_to_Q (spent sample_half_spent e) + b64_to_Q b64_above_0_5)%Q
  /\ status_of outcome.2 = 200
  /\ outcome.2 <> Next budget_exceeded
  /\ spent outcome.1 e = b64_one
  /\ ~ (b64_to_Q (spent outcome.1 e)
        == b64_to_Q (spent sample_half_spent e) + b64_to_Q b64_above_0_5)%Q.
Proof.
  intros e outcome.
  assert (spent sample_half_spent e = b64_0_5) as Hhalf by (vm_compute; reflexivity).
  assert (spent outcome.1 e = b64_one) as Hone by (vm_compute; reflexivity).
  split_and!.
  - by eexists.
  - exact Hhalf.
  - repeat split; try done. by eexists.
  - vm_compute. reflexivity.
  - vm_compute. reflexivity.
  - vm_compute. reflexivity.
  - rewrite Hhalf. vm_compute. reflexivity.
  - vm_compute. reflexivity.
  - vm_compute. discriminate.
  - exact Hone.
  - rewrite Hone, Hhalf. vm_compute. discriminate.
Qed.

Lemma post_analytics_dp_decision env st election_id query epsilon delta :
  dp_valid election_id query epsilon delta ->
  let outcome :=
    post_analytics_dp env st election_id (Some query) (Some epsilon) (Some delta) in
  let sum := b64_plus (currentBudget st election_id) epsilon in
  (b64_gt sum b64_one = true -> outcome = (st, Next budget_exceeded))
  /\ (b64_gt sum b64_one = false ->
      exists reply,
        outcome = (with_dpAnalyticsBudget st (<[election_id := sum]> (dpAnalyticsBudget st)),
                   Json 200 reply)).
Proof.
  intros Hvalid outcome sum. unfold outcome. rewrite post_analytics_dp_valid by done.
  destruct Hvalid as (_ & _ & _ & [items ->] & _). fold sum.
  split; intros ->; [done | eauto].
Qed.

(** C4, amended.  Epsilon, delta and the spend are double-precision numbers.
    A query with valid parameters is rejected with BudgetExceeded (403)
    exactly when the double-precision sum of the election's spend and the
    requested epsilon exceeds 1.0, and is answered (200) otherwise.  An
    answered query replaces the spend of its election by that sum and leaves
    the other elections alone.  On a running server whose requests carry
    numbers as [JSON.parse] delivers them, the spend the handler reads is the
    stored one, no request lowers the spend of any election, and every spend
    lies between 0 and 1.0.  In particular, on an election with nothing
    spent, a query with epsilon 0.6 is answered, after which a query with
    epsilon 0.5 is rejected and a query with epsilon 0.4 is answered. *)
Theorem dp_budget_is_enforced :
  (forall env st election_id query epsilon delta,
      dp_valid election_id query epsilon delta ->
      let outcome :=
        post_analytics_dp env st election_id (Some query) (Some epsilon) (Some delta) in
      let sum := b64_plus (currentBudget st election_id) epsilon in
      (outcome = (st, Next budget_exceeded) <-> b64_gt sum b64_one = true)
      /\ (b64_gt sum b64_one = false -> exists reply, outcome.2 = Json 200 reply))
  /\ (forall env st election_id query epsilon delta st' status reply,
      post_analytics_dp env st election_id query epsilon delta = (st', Json status reply) ->
      exists eps,
        epsilon = Some eps
        /\ spent st' election_id = b64_plus (currentBudget st election_id) eps
        /\ (forall other, other <> election_id -> spent st' other = spent st other))
  /\ (forall trace more election_id,
      json_numbers (trace ++ more) ->
      let before := (run initial trace).1 in
      let after := (run initial (trace ++ more)).1 in
      currentBudget before election_id = spent before election_id
      /\ b64_le (spent before election_id) (spent after election_id) = true)
  /\ (forall trace election_id,
      json_numbers trace ->
      let st := (run initial trace).1 in
      b64_le b64_zero (spent st election_id) = true
      /\ b64_le (spent st election_id) b64_one = true)
  /\ (forall env1 env2 env3 st election_id query delta,
      dp_valid election_id query b64_0_6 delta ->
      currentBudget st election_id = b64_zero ->
      let first :=
        post_analytics_dp env1 st election_id (Some query) (Some b64_0_6) (Some delta) in
      (exists reply, first.2 = Json 200 reply)
      /\ post_analytics_dp env2 first.1 election_id (Some query) (Some b64_0_5) (Some delta)
         = (first.1, Next budget_exceeded)
      /\ (exists reply,
             (post_analytics_dp env3 first.1 election_id (Some query) (Some b64_0_4)
                                (Some delta)).2 = Json 200 reply)).
Proof.
  split_and!.
  - intros env st e query eps delta Hvalid outcome sum.
    destruct (post_analytics_dp_decision env st e query eps delta Hvalid) as [Hover Hunder].
    fold outcome sum in Hover, Hunder. split; [split; [|done]|].
    + intros Hout. destruct (b64_gt sum b64_one) eqn:E; [done|].
      destruct (Hunder eq_refl) as [reply Hr]. rewrite Hr in Hout. discriminate Hout.
    + intros Hn. destruct (Hunder Hn) as [reply ->]. eauto.
  - intros env st e query epsilon delta st' status reply H.
    apply post_analytics_dp_success in H as (eps & -> & _ & _ & _ & ->).
    exists eps. split_and!; [done | |].
    + by rewrite spent_insert_eq.
    + intros other Hne. by apply spent_insert_ne.
  - intros trace more e [Htrace Hmore]%Forall_app before after.
    destruct (run_budget trace initial initial_budget_bounded Htrace) as [Hinv _].
    fold before in Hinv.
    destruct (run_budget more before Hinv Hmore) as [Hinv' Hmono].
    unfold after. rewrite run_app. fold before.
    destruct (budget_bounded_current before e Hinv) as (Hcur & Hshape & _).
    destruct (budget_bounded_current _ e Hinv') as (_ & Hshape' & _).
    split; [done|]. by apply b64_units_le.
  - intros trace e Htrace st. subst st.
    destruct (run_budget trace initial initial_budget_bounded Htrace) as [Hinv _].
    destruct (budget_bounded_current _ e Hinv) as (_ & Hshape & Hle).
    split; [|done]. by destruct Hshape as [->|(m & ex & -> & _)].
  - intros env1 env2 env3 st e query delta Hvalid Hzero first.
    destruct (post_analytics_dp_decision env1 st e query _ delta Hvalid) as [_ Hfirst].
    rewrite Hzero in Hfirst. destruct Hfirst as [reply1 H1]; [done|]. fold first in H1.
    assert (currentBudget first.1 e = b64_0_6) as Hspent
      by (rewrite H1; by apply currentBudget_insert).
    split_and!.
    + rewrite H1. eauto.
    + apply post_analytics_dp_decision; [by eapply dp_valid_epsilon | by rewrite Hspent].
    + assert (dp_valid e query b64_0_4 delta) as Hv4 by (by eapply dp_valid_epsilon).
      destruct (post_analytics_dp_decision env3 first.1 e query _ delta Hv4) as [_ Hthird].
      rewrite Hspent in Hthird. destruct Hthird as [reply3 ->]; [done | eauto].
Qed.

(** C4 at work on the fresh server, election ["election-1"], delta 0.1: the
    scenario of 0.6, 0.5 and 0.4, a single query with epsilon 1.1, and the
    bounds on the spend after the first query. *)
Lemma dp_budget_is_enforced_witness :
  let e := JStr "election-1" in
  let ask env st epsilon :=
    post_analytics_dp env st e (Some sample_query) (Some epsilon) (Some b64_0_1) in
  let first := ask (env_at 300 "u11") initial b64_0_6 in
  status_of first.2 = 200
  /\ ask (env_at 310 "u12") first.1 b64_0_5
     = (first.1,
        Next (ExpressError "Differential privacy budget exceeded for this election" 403))
  /\ status_of (ask (env_at 320 "u13") first.1 b64_0_4).2 = 200
  /\ spent first.1 e = b64_0_6
  /\ ask (env_at 330 "u14") initial b64_1_1 = (initial, Next budget_exceeded)
  /\ b64_le (spent initial e) (spent first.1 e) = true
  /\ b64_le (spent first.1 e) b64_one = true.
Proof.
  intros e ask first.
  destruct dp_budget_is_enforced as (Hdecide & Hexact & Hmono & Hbound & Hscenario).
  assert (dp_valid e sample_query b64_0_6 b64_0_1) as Hvalid.
  { repeat split; try done. by eexists. }
  assert (currentBudget initial e = b64_zero) as Hzero by reflexivity.
  destruct (Hscenario (env_at 300 "u11") (env_at 310 "u12") (env_at 320 "u13")
                      initial e sample_query b64_0_1 Hvalid Hzero)
    as ([reply1 H1] & H2 & [reply3 H3]).
  fold (ask (env_at 300 "u11") initial b64_0_6) in H1, H2, H3. fold first in H1, H2, H3.
  set (trace := [ (env_at 300 "u11",
                   PostAnalyticsDp e (Some sample_query) (Some b64_0_6) (Some b64_0_1)) ]).
  assert (json_numbers ([] ++ trace)) as Hjson by (repeat constructor).
  split_and!.
  - by rewrite H1.
  - exact H2.
  - unfold ask. by rewrite H3.
  - destruct (Hexact (env_at 300 "u11") initial e (Some sample_query) (Some b64_0_6)
                     (Some b64_0_1) first.1 200 reply1) as (eps & [= <-] & Hs & _).
    { rewrite <- H1. apply surjective_pairing. }
    rewrite Hs. reflexivity.
  - apply (Hdecide (env_at 330 "u14") initial e sample_query b64_1_1 b64_0_1).
    + repeat split; try done. by eexists.
    + reflexivity.
  - exact (proj2 (Hmono [] trace e Hjson)).
  - exact (proj2 (Hbound trace e Hjson)).
Defined.

(** ** Further properties of the handlers *)

(** X1.  A request that is answered with an error changes none of the stores:
    whatever handler serves it, an outcome handed to the error middleware
    leaves the voters, the candidates, the ledger, the vote counter, the
    encrypted ballots, the tallies, the privacy budget and the ranked ballots
    as they were. *)
Theorem failed_requests_change_nothing env st req err :
  (handle env st req).2 = Next err -> (handle env st req).1 = st.
Proof.
  destruct (handle env st req) as [st' r] eqn:H. simpl. intros ->.
  destruct req; simpl in H.
  all: try (unfold post_voters, get_voter, put_voter, delete_voter, post_candidates,
            get_candidate_votes, get_votes_range, post_ballots_encrypted,
            post_results_homomorphic, post_ballots_ranked in H; handler_cases; done).
  - by apply post_votes_failure in H as [-> _].
  - by apply post_analytics_dp_failure in H.
Qed.

(** X1 at work: a cast by an unregistered voter and a query that asks for more
    than the whole budget leave [sample_counted] as it was. *)
Lemma failed_requests_change_nothing_witness :
  (handle (env_at 90 "u8") sample_counted (PostVotes (JNum 9) (JNum 7))).1 = sample_counted
  /\ (handle (env_at 90 "u8") sample_counted
             (PostAnalyticsDp (JStr "election-1") (Some sample_query)
                              (Some b64_1_1) (Some b64_0_1))).1 = sample_counted.
Proof.
  split.
  - apply (failed_requests_change_nothing _ _ _ (voter_not_found (JNum 9))).
    vm_compute. reflexivity.
  - apply (failed_requests_change_nothing _ _ _ budget_exceeded).
    vm_compute. reflexivity.
Defined.

(** X2.  Registration and lookup go round: when [POST /api/voters] answers
    with 218 for an integer identifier, the voter was not registered before
    and is at least 18; the reply is the new record, with [has_voted] false;
    [GET /api/voters/:voter_id] then answers 222 with that same record, and
    every other lookup answers as it did before the registration. *)
Theorem registered_voter_is_found st id name age st' status reply :
  post_voters st (JNum id) name age = (st', Json status reply) ->
  exists a,
    age = Some a /\ 18 <= a /\ status = 218
    /\ reply = RVoter (Voter.mk (JNum id) name a false)
    /\ (get_voter st (Some id)).2 = Next (voter_not_found (JNum id))
    /\ get_voter st' (Some id) = (st', Json 222 (RVoter (Voter.mk (JNum id) name a false)))
    /\ (forall other, other <> Some id -> (get_voter st' other).2 = (get_voter st other).2).
Proof.
  unfold post_voters, has. intros H. handler_cases.
  match goal with H : bool_decide _ = false |- _ =>
    apply bool_decide_eq_false in H; rewrite <- eq_None_not_Some in H; rename H into Hnew end.
  eexists. split_and!; try done.
  - lia.
  - unfold get_voter. simpl. by rewrite Hnew.
  - unfold get_voter. simpl. by rewrite lookup_insert_eq.
  - intros [other|] Hne; [|done]. unfold get_voter. simpl.
    rewrite lookup_insert_ne by congruence. by destruct (voters st !! JNum other).
Qed.

(** X2 at work: voter 5 registers on [sample_counted] and is found. *)
Lemma registered_voter_is_found_witness :
  let st' := (post_voters sample_counted (JNum 5) (JStr "Eve") (Some 19)).1 in
  get_voter st' (Some 5) = (st', Json 222 (RVoter (Voter.mk (JNum 5) (JStr "Eve") 19 false)))
  /\ (get_voter sample_counted (Some 5)).2
     = Next (ExpressError "voter with id: 5 was not found" 417).
Proof.
  intros st'.
  destruct (registered_voter_is_found sample_counted 5 (JStr "Eve") (Some 19) st' 218
              (RVoter (Voter.mk (JNum 5) (JStr "Eve") 19 false)))
    as (a & [= <-] & _ & _ & _ & Hbefore & Hafter & _); [by vm_compute|].
  split; [exact Hafter | exact Hbefore].
Defined.

Lemma delete_voter_success st voter_id st' status reply :
  delete_voter st voter_id = (st', Json status reply) ->
  exists id voter,
    voter_id = Some id /\ voters st !! JNum id = Some voter /\ status = 225
    /\ st' = with_voters st (delete (JNum id) (voters st)).
Proof. unfold delete_voter. intros H. handler_cases. by eexists _, _. Qed.

(** X3.  When [DELETE /api/voters/:voter_id] answers with 225 the record is
    gone: a lookup, an update and a second deletion of the same voter are
    answered with NotFound (417), and a cast in the voter's name fails.  The
    other voters, the candidates with their counters, the ledger and the vote
    counter are untouched, so a vote the voter had cast stays counted. *)
Theorem deleted_voter_is_gone st id st' status reply :
  delete_voter st (Some id) = (st', Json status reply) ->
  status = 225
  /\ (get_voter st' (Some id)).2 = Next (voter_not_found (JNum id))
  /\ (forall name age, put_voter st' (Some id) name age = (st', Next (voter_not_found (JNum id))))
  /\ delete_voter st' (Some id) = (st', Next (voter_not_found (JNum id)))
  /\ (forall env candidate_id,
        exists err, post_votes env st' (JNum id) candidate_id = (st', Next err))
  /\ (forall other, other <> JNum id -> voters st' !! other = voters st !! other)
  /\ candidates st' = candidates st /\ votes st' = votes st
  /\ nextVoteId st' = nextVoteId st.
Proof.
  intros (? & voter & [= <-] & Hv & -> & ->)%delete_voter_success.
  set (st' := with_voters st (delete (JNum id) (voters st))).
  assert (voters st' !! JNum id = None) as Hgone by (simpl; apply lookup_delete_eq).
  assert (get_num (Some id) (voters st') = None) as Hnum by exact Hgone.
  split_and!; try done.
  - unfold get_voter. by rewrite Hnum.
  - intros name age. unfold put_voter. by rewrite Hnum.
  - unfold delete_voter. by rewrite Hnum.
  - intros env c. unfold post_votes. rewrite Hgone.
    destruct (falsy (JNum id) || falsy c); eauto.
  - intros other Hne. simpl. by rewrite lookup_delete_ne.
Qed.

(** X3 at work: voter 1 of [sample_counted], who has voted, is deleted; the
    ledger still holds the two votes. *)
Lemma deleted_voter_is_gone_witness :
  let st' := (delete_voter sample_counted (Some 1)).1 in
  (get_voter st' (Some 1)).2 = Next (ExpressError "voter with id: 1 was not found" 417)
  /\ votes st' = votes sample_counted
  /\ size (votes st') = 2%nat.
Proof.
  intros st'.
  destruct (deleted_voter_is_gone sample_counted 1 st' 225
              (RMessage "voter with id: 1 deleted successfully"))
    as (_ & Hget & _ & _ & _ & _ & _ & Hvotes & _); [by vm_compute|].
  split_and!; [exact Hget | exact Hvotes |].
  rewrite Hvotes. vm_compute. reflexivity.
Defined.

(** What a request can do to the candidates, the ledger and the counter:
    nothing, register a new candidate with no votes, or record one vote. *)
Lemma handle_election_step env st req :
  (candidates (handle env st req).1 = candidates st
   /\ votes (handle env st req).1 = votes st
   /\ nextVoteId (handle env st req).1 = nextVoteId st)
  \/ (exists candidate_id name party,
        candidates st !! candidate_id = None
        /\ candidates (handle env st req).1
           = <[candidate_id := Candidate.mk candidate_id name party 0]> (candidates st)
        /\ votes (handle env st req).1 = votes st
        /\ nextVoteId (handle env st req).1 = nextVoteId st)
  \/ (exists voter_id candidate_id candidate,
        candidates st !! candidate_id = Some candidate
        /\ candidates (handle env st req).1
           = <[candidate_id := Candidate.mk (Candidate.candidate_id candidate)
                                            (Candidate.name candidate)
                                            (Candidate.party candidate)
                                            (Candidate.votes candidate + 1)]> (candidates st)
        /\ votes (handle env st req).1
           = <[nextVoteId st := Vote.mk (nextVoteId st) voter_id candidate_id (now env)]>
               (votes st)
        /\ nextVoteId (handle env st req).1 = nextVoteId st + 1).
Proof.
  destruct (handle env st req) as [st' r] eqn:H. simpl.
  destruct req; simpl in H.
  all: try (left; unfold post_voters, get_voter, put_voter, delete_voter,
            get_candidate_votes, get_votes_range, post_ballots_encrypted,
            post_results_homomorphic, post_analytics_dp, post_ballots_ranked in H;
            handler_cases; done).
  - unfold post_candidates, has in H. handler_cases; [by left | by left |].
    right. left. eexists _, _, _. split_and!; try done.
    match goal with H : bool_decide _ = false |- _ =>
      apply bool_decide_eq_false in H; by apply eq_None_not_Some end.
  - destruct r as [status body|err].
    + apply post_votes_success in H as (voter & cand & _ & _ & Hc & _ & _ & ->).
      right. right. by eexists _, _, _.
    + apply post_votes_failure in H as [-> _]. by left.
Qed.

Lemma candidate_kept_refl c : candidate_kept c c.
Proof. unfold candidate_kept. split_and!; (done || lia). Qed.

Lemma candidate_kept_trans c1 c2 c3 :
  candidate_kept c1 c2 -> candidate_kept c2 c3 -> candidate_kept c1 c3.
Proof.
  unfold candidate_kept. intros (? & ? & ? & ?) (? & ? & ? & ?).
  split_and!; (congruence || lia).
Qed.

Lemma handle_candidate_kept env st req key c :
  candidates st !! key = Some c ->
  exists c', candidates (handle env st req).1 !! key = Some c' /\ candidate_kept c c'.
Proof.
  intros Hc.
  destruct (handle_election_step env st req)
    as [(-> & _) | [(k & name & party & Hnew & -> & _) | (v & k & cand & Hk & -> & _)]].
  - eauto using candidate_kept_refl.
  - exists c. rewrite lookup_insert_ne by congruence. eauto using candidate_kept_refl.
  - destruct (decide (k = key)) as [->|Hne].
    + rewrite lookup_insert_eq. eexists. split; [done|].
      simplify_eq. unfold candidate_kept. simpl. split_and!; (done || lia).
    + rewrite lookup_insert_ne by done. eauto using candidate_kept_refl.
Qed.

(** X4.  Candidates are permanent: whatever requests are served, a registered
    candidate stays registered under the same key, with the same
    [candidate_id], [name] and [party], and its [votes] counter never goes
    down. *)
Theorem candidates_are_permanent st trace key c :
  candidates st !! key = Some c ->
  exists c', candidates (run st trace).1 !! key = Some c' /\ candidate_kept c c'.
Proof.
  revert st c. induction trace as [|[env req] trace IH]; intros st c Hc.
  - eauto using candidate_kept_refl.
  - rewrite run_cons. simpl.
    destruct (handle_candidate_kept env st req key c Hc) as (c1 & H1 & Hk1).
    destruct (IH _ _ H1) as (c2 & H2 & Hk2).
    eauto using candidate_kept_trans.
Qed.

(** X4 at work: candidate 7, registered by the third request of
    [sample_election], is still there after the five casts that follow, with
    two votes. *)
Lemma candidates_are_permanent_witness :
  exists c', candidates sample_counted !! JNum 7 = Some c'
             /\ candidate_kept (Candidate.mk (JNum 7) (JStr "Cyd") (JStr "Green") 0) c'
             /\ Candidate.votes c' = 2.
Proof.
  destruct (candidates_are_permanent sample_registered (drop 3 sample_election) (JNum 7)
              (Candidate.mk (JNum 7) (JStr "Cyd") (JStr "Green") 0))
    as (c' & Hc' & Hkept); [by vm_compute|].
  exists c'. split_and!; [exact Hc' | exact Hkept |].
  assert (candidates (run sample_registered (drop 3 sample_election)).1 !! JNum 7
          = Some (Candidate.mk (JNum 7) (JStr "Cyd") (JStr "Green") 2)) as E
    by (vm_compute; reflexivity).
  rewrite E in Hc'. by injection Hc' as <-.
Defined.

Lemma ledger_count_insert st id v key :
  votes st !! id = None ->
  size (filter (fun entry : Z * Vote.t => Vote.candidate_id entry.2 = key)
               (<[id := v]> (votes st)))
  = if decide (Vote.candidate_id v = key) then S (ledger_count st key)
    else ledger_count st key.
Proof.
  intros Hnew. unfold ledger_count. rewrite map_filter_insert. simpl.
  destruct (decide (Vote.candidate_id v = key)) as [Heq|Hne].
  - rewrite map_size_insert_None; [done|]. by apply map_lookup_filter_None_2; left.
  - by rewrite delete_id.
Qed.

(** The invariants of the ledger are kept by every request. *)
Lemma handle_ledger_invariants env st req :
  ledger_consistent st /\ ledger_dense st /\ counters_match st ->
  let st' := (handle env st req).1 in
  ledger_consistent st' /\ ledger_dense st' /\ counters_match st'.
Proof.
  intros (Hcons & (Hlow & Hsize & Hdense) & Hmatch) st'. unfold st'. clear st'.
  assert (votes st !! nextVoteId st = None) as Hfree.
  { apply eq_None_not_Some. intros [v Hv]. apply Hcons in Hv as (_ & ? & _). lia. }
  destruct (handle_election_step env st req)
    as [(Hc & Hv & Hn) | [(k & name & party & Hnew & Hc & Hv & Hn)
                         | (voter & k & cand & Hk & Hc & Hv & Hn)]].
  - unfold ledger_consistent, ledger_dense, counters_match, ledger_count.
    rewrite Hc, Hv, Hn. by split_and!.
  - unfold ledger_consistent, ledger_dense, counters_match, ledger_count.
    rewrite Hc, Hv, Hn. split_and!; try done.
    + intros id v Hl. destruct (Hcons _ _ Hl) as (? & ? & Hreg).
      split_and!; try (done || lia). apply lookup_insert_is_Some'. by right.
    + intros key c [[<- <-]|[Hne Hl]]%lookup_insert_Some; [|by apply Hmatch].
      split; [done|]. simpl.
      assert (filter (fun entry : Z * Vote.t => Vote.candidate_id entry.2 = k) (votes st) = ∅)
        as ->; [|by rewrite map_size_empty].
      apply map_empty_filter. intros id v Hl Hid. simpl in Hid.
      destruct (Hcons _ _ Hl) as (_ & _ & [c Hreg]). rewrite Hid in Hreg. congruence.
  - unfold ledger_consistent, ledger_dense, counters_match.
    rewrite Hc, Hv, Hn. split_and!.
    + intros id v [[<- <-]|[Hne Hl]]%lookup_insert_Some.
      * simpl. split_and!; try (done || lia). apply lookup_insert_is_Some'. by left.
      * destruct (Hcons _ _ Hl) as (? & ? & Hreg).
        split_and!; try (done || lia). apply lookup_insert_is_Some'. by right.
    + lia.
    + rewrite map_size_insert_None by done. lia.
    + intros id Hid. apply lookup_insert_is_Some'.
      destruct (decide (nextVoteId st = id)); [by left | right; apply Hdense; lia].
    + intros key c Hl. unfold ledger_count at 1. rewrite Hv.
      rewrite ledger_count_insert by done. simpl.
      apply lookup_insert_Some in Hl as [[<- <-]|[Hne Hl]].
      * destruct (Hmatch _ _ Hk) as [Hid Hcount]. simpl.
        rewrite decide_True by done. split; [done | lia].
      * rewrite decide_False by done. by apply Hmatch.
Qed.

Lemma run_ledger_invariants trace : forall st,
  ledger_consistent st /\ ledger_dense st /\ counters_match st ->
  ledger_consistent (run st trace).1 /\ ledger_dense (run st trace).1
  /\ counters_match (run st trace).1.
Proof.
  induction trace as [|[env req] trace IH]; intros st Hinv; [done|].
  rewrite run_cons. simpl. apply IH. by apply handle_ledger_invariants.
Qed.

Lemma initial_ledger_invariants :
  ledger_consistent initial /\ ledger_dense initial /\ counters_match initial.
Proof.
  split_and!.
  - intros id v H. simpl in H. by rewrite lookup_empty in H.
  - unfold ledger_dense. simpl. split_and!; [lia | reflexivity | intros; lia].
  - intros key c H. simpl in H. by rewrite lookup_empty in H.
Qed.

(** X5.  The ledger and the counter agree on every running server: each
    record is stored under its own [vote_id] and references a registered
    candidate, and the ledger holds exactly the identifiers 101, ...,
    [nextVoteId - 1], so that no record is ever lost or overwritten. *)
Theorem the_ledger_is_dense trace :
  let st := (run initial trace).1 in
  (forall id v, votes st !! id = Some v ->
                Vote.vote_id v = id /\ 101 <= id < nextVoteId st
                /\ is_Some (candidates st !! Vote.candidate_id v))
  /\ Z.of_nat (size (votes st)) = nextVoteId st - 101
  /\ (forall id, 101 <= id < nextVoteId st -> is_Some (votes st !! id)).
Proof.
  intros st.
  destruct (run_ledger_invariants trace initial initial_ledger_invariants)
    as (Hcons & (_ & Hsize & Hdense) & _).
  by split_and!.
Qed.

(** X6.  The count that [GET /api/candidates/:candidate_id/votes] reports is
    the number of ledger records that reference the candidate: on every
    running server a registered candidate gets 229 with its own identifier
    and that number. *)
Theorem vote_count_is_the_ledger_count trace id c :
  let st := (run initial trace).1 in
  candidates st !! JNum id = Some c ->
  get_candidate_votes st (Some id)
  = (st, Json 229 (RVoteCount (JNum id) (Z.of_nat (ledger_count st (JNum id))))).
Proof.
  intros st Hc.
  destruct (run_ledger_invariants trace initial initial_ledger_invariants) as (_ & _ & Hmatch).
  destruct (Hmatch _ _ Hc) as [Hid Hcount].
  unfold get_candidate_votes. simpl get_num. fold st. rewrite Hc, Hid, Hcount. done.
Qed.

(** X6 at work: after [sample_election] candidate 7 is reported with the two
    records of the ledger. *)
Lemma vote_count_is_the_ledger_count_witness :
  get_candidate_votes sample_counted (Some 7)
  = (sample_counted, Json 229 (RVoteCount (JNum 7) 2))
  /\ ledger_count sample_counted (JNum 7) = 2%nat.
Proof.
  assert (ledger_count sample_counted (JNum 7) = 2%nat) as Hcount by (vm_compute; reflexivity).
  split; [|exact Hcount].
  pose proof (vote_count_is_the_ledger_count sample_election 7
                (Candidate.mk (JNum 7) (JStr "Cyd") (JStr "Green") 2)) as H.
  cbv zeta in H. fold sample_counted in H. rewrite Hcount in H. apply H.
  vm_compute. reflexivity.
Defined.




Lemma handle_ranked_kept env st req key b :
  rankedBallots st !! key = Some b -> rankedBallots (handle env st req).1 !! key = Some b.
Proof.
  intros Hb. destruct (handle env st req) as [st' r] eqn:H. simpl.
  destruct req; simpl in H.
  all: try (unfold post_voters, get_voter, put_voter, delete_voter, post_candidates,
            get_candidate_votes, get_votes_range, post_ballots_encrypted,
            post_results_homomorphic, post_analytics_dp in H;
            handler_cases; done).
  - destruct r as [status body|err].
    + by apply post_votes_success in H as (voter & cand & _ & _ & _ & _ & _ & ->).
    + by apply post_votes_failure in H as [-> _].
  - unfold post_ballots_ranked in H. handler_cases; try done.
    match goal with H : bool_decide _ = false |- _ =>
      apply bool_decide_eq_false in H; rename H into Hfree end.
    rewrite lookup_insert_ne; [done|]. intros <-. apply Hfree. eauto.
Qed.

Lemma run_ranked_kept trace : forall st key b,
  rankedBallots st !! key = Some b -> rankedBallots (run st trace).1 !! key = Some b.
Proof.
  induction trace as [|[env req] trace IH]; intros st key b Hb; [done|].
  rewrite run_cons. simpl. by apply IH, handle_ranked_kept.
Qed.

(** X8.  Ranked ballots are written once.  When [POST /api/ballots/ranked]
    answers with 200, the ranking is a non-empty array and the timestamp is a
    date; the ballot is stored under the key of its pair with the election,
    the voter, the ranking and the instant submitted; and whatever requests
    follow, that entry is neither changed nor removed. *)
Theorem accepted_ranked_ballot_is_kept
        env st election_id voter_id ranking ts st' status reply trace :
  post_ballots_ranked env st election_id voter_id ranking ts = (st', Json status reply) ->
  exists items t ballot_id,
    ranking = Some items /\ items <> [] /\ ts = Some t
    /\ status = 200 /\ reply = RRanked ballot_id "accepted"
    /\ rankedBallots st !! voterKey election_id voter_id = None
    /\ rankedBallots (run st' trace).1 !! voterKey election_id voter_id
       = Some (RankedBallot.mk ballot_id election_id voter_id items t).
Proof.
  intros H.
  assert (exists items t ballot_id,
             ranking = Some items /\ items <> [] /\ ts = Some t
             /\ status = 200 /\ reply = RRanked ballot_id "accepted"
             /\ rankedBallots st !! voterKey election_id voter_id = None
             /\ rankedBallots st' !! voterKey election_id voter_id
                = Some (RankedBallot.mk ballot_id election_id voter_id items t))
    as (items & t & ballot_id & ? & ? & ? & ? & ? & ? & Hstored).
  { unfold post_ballots_ranked in H. handler_cases.
    match goal with H : bool_decide _ = false |- _ =>
      apply bool_decide_eq_false in H; rewrite <- eq_None_not_Some in H end.
    eexists _, _, _. split_and!; try done. apply lookup_insert_eq. }
  exists items, t, ballot_id. split_and!; try done. by apply run_ranked_kept.
Qed.

(** X8 at work: the ballot of voter 12 in ["city-rcv"], accepted by the fresh
    server, is still stored after [sample_election] has been served. *)
Lemma accepted_ranked_ballot_is_kept_witness :
  rankedBallots (run sample_ranked_typed sample_election).1 !! "city-rcv_12"
  = Some (RankedBallot.mk "rb_0" (JStr "city-rcv") (JNum 12) [JNum 3; JNum 1; JNum 2] 1700).
Proof.
  destruct (accepted_ranked_ballot_is_kept (env_at 200 "u9") initial (JStr "city-rcv") (JNum 12)
              (Some [JNum 3; JNum 1; JNum 2]) (Some 1700) sample_ranked_typed 200
              (RRanked "rb_0" "accepted") sample_election)
    as (items & t & ballot_id & [= <-] & _ & [= <-] & _ & [= <-] & _ & Hkept);
    [by vm_compute | exact Hkept].
Defined.

Lemma post_ballots_encrypted_fresh env st body st' status reply :
  post_ballots_encrypted env st body = (st', Json status reply) ->
  forall key b, encryptedBallots st !! key = Some b ->
                Ballot.nullifier b <> BallotBody.nullifier body.
Proof.
  unfold post_ballots_encrypted. intros H key b Hb Heq.
  destruct (existsb (fun b => strict_eq (Ballot.nullifier b) (BallotBody.nullifier body))
                    (values (encryptedBallots st))) eqn:E.
  - repeat case_match; simplify_eq/=.
  - apply not_true_iff_false in E. apply E, existsb_values.
    exists key, b. split; [done|]. unfold strict_eq. by apply bool_decide_eq_true.
Qed.

Lemma handle_nullifiers_distinct env st req :
  nullifiers_distinct st -> nullifiers_distinct (handle env st req).1.
Proof.
  intros Hinv. destruct (handle env st req) as [st' r] eqn:H. simpl.
  destruct req; simpl in H.
  all: try (unfold post_voters, get_voter, put_voter, delete_voter, post_candidates,
            get_candidate_votes, get_votes_range, post_results_homomorphic,
            post_analytics_dp, post_ballots_ranked in H;
            handler_cases; done).
  - destruct r as [status body|err].
    + by apply post_votes_success in H as (voter & cand & _ & _ & _ & _ & _ & ->).
    + by apply post_votes_failure in H as [-> _].
  - destruct r as [status reply|err].
    + pose proof (post_ballots_encrypted_fresh _ _ _ _ _ _ H) as Hfresh.
      apply post_ballots_encrypted_success in H as (_ & -> & _ & _).
      unfold nullifiers_distinct. simpl.
      intros k1 k2 b1 b2 [[<- <-]|[Hne1 H1]]%lookup_insert_Some
             [[<- <-]|[Hne2 H2]]%lookup_insert_Some; simpl.
      * done.
      * split_and!; [done | done |]. intros Heq. by destruct (Hfresh _ _ H2).
      * destruct (Hinv _ _ _ _ H1 H1) as (? & ? & _). split_and!; [done | done |].
        intros Heq. by destruct (Hfresh _ _ H1).
      * by apply Hinv.
    + unfold post_ballots_encrypted in H. by handler_cases.
Qed.

(** X9.  No two stored encrypted ballots carry the same nullifier: on every
    running server each stored ballot sits under its own [ballot_id] with
    status ["accepted"], and two entries with equal nullifiers are the same
    entry.  This holds whatever [uuidv4] returns. *)
Theorem stored_nullifiers_are_distinct trace k1 k2 b1 b2 :
  let st := (run initial trace).1 in
  encryptedBallots st !! k1 = Some b1 -> encryptedBallots st !! k2 = Some b2 ->
  Ballot.ballot_id b1 = k1 /\ Ballot.status b1 = "accepted"
  /\ (Ballot.nullifier b1 = Ballot.nullifier b2 -> k1 = k2).
Proof.
  intros st. apply (reachable_ind nullifiers_distinct).
  - intros ? ? ? ? H. simpl in H. by rewrite lookup_empty in H.
  - intros env st0 req. apply handle_nullifiers_distinct.
  - by exists trace.
Qed.

(** X9 at work on [sample_ballots]: the two accepted ballots are stored under
    their identifiers, and their nullifiers differ. *)
Lemma stored_nullifiers_are_distinct_witness :
  let st := (run initial sample_ballots).1 in
  exists b1 b2,
    encryptedBallots st !! "b_uuid-1" = Some b1 /\ encryptedBallots st !! "b_uuid-2" = Some b2
    /\ Ballot.ballot_id b1 = "b_uuid-1" /\ Ballot.status b1 = "accepted"
    /\ Ballot.nullifier b1 <> Ballot.nullifier b2
    /\ size (encryptedBallots st) = 2%nat.
Proof.
  intros st.
  set (b1 := Ballot.mk "b_uuid-1" "accepted" (JStr "0x4e554c4c") 100).
  set (b2 := Ballot.mk "b_uuid-2" "accepted" (JStr "0x0ddba11") 110).
  assert (encryptedBallots st !! "b_uuid-1" = Some b1) as H1 by (vm_compute; reflexivity).
  assert (encryptedBallots st !! "b_uuid-2" = Some b2) as H2 by (vm_compute; reflexivity).
  destruct (stored_nullifiers_are_distinct sample_ballots _ _ _ _ H1 H2) as (Hid & Hs & Hn).
  exists b1, b2.
  split_and!; [exact H1 | exact H2 | exact Hid | exact Hs | | vm_compute; reflexivity].
  intros Heq. by specialize (Hn Heq).
Defined.

(** Counting the entries that satisfy [P], where [P] is the disjoint union of
    [Q] and [R]. *)
Lemma size_filter_split {K A} `{Countable K} (P Q R : K * A -> Prop)
      `{forall x, Decision (P x)} `{forall x, Decision (Q x)} `{forall x, Decision (R x)}
      (m : gmap K A) :
  (forall x, P x <-> Q x \/ R x) -> (forall x, Q x -> R x -> False) ->
  size (filter P m) = (size (filter Q m) + size (filter R m))%nat.
Proof.
  intros Hsplit Hdisjoint. induction m as [|i x m Hi IH] using map_ind.
  - by rewrite !map_filter_empty, map_size_empty.
  - rewrite !map_filter_insert, !delete_id by done.
    assert (forall S : K * A -> Prop, forall `{forall x, Decision (S x)},
               size (<[i := x]> (filter S m)) = Datatypes.S (size (filter S m))) as Hsize.
    { intros S ?. apply map_size_insert_None. by apply map_lookup_filter_None_2; left. }
    pose proof (Hsplit (i, x)) as Hx. pose proof (Hdisjoint (i, x)) as Hd.
    repeat case_decide; rewrite ?Hsize; try lia; tauto.
Qed.

Lemma votes_between_split st id a b c :
  a <= b -> b < c ->
  votes_between st id a c = (votes_between st id a b + votes_between st id (b + 1) c)%nat.
Proof.
  intros Hab Hbc. unfold votes_between. apply size_filter_split.
  - intros [k v]. simpl.
    destruct (Z.le_gt_cases (Vote.timestamp v) b); intuition lia.
  - intros [k v]. simpl. intuition lia.
Qed.

(** X10.  Range counts add up.  On a running server, for a registered
    candidate and instants [a <= b < c] (in milliseconds), the range query
    answers 235 on each of the intervals from [a] to [b], from [b + 1] to
    [c] and from [a] to [c], and the count of the whole interval is the sum
    of the counts of its two parts: no vote is counted twice or dropped. *)
Theorem range_counts_add_up trace id a b c :
  let st := (run initial trace).1 in
  is_Some (candidates st !! JNum id) -> a <= b -> b < c ->
  exists first second,
    get_votes_range st (Some id) (Some a) (Some b) = (st, Json 235 (RRange id a b first))
    /\ get_votes_range st (Some id) (Some (b + 1)) (Some c)
       = (st, Json 235 (RRange id (b + 1) c second))
    /\ get_votes_range st (Some id) (Some a) (Some c)
       = (st, Json 235 (RRange id a c (first + second))).
Proof.
  intros st Hc Hab Hbc.
  assert (candidate_ids_truthy st) as Hinv
    by (apply reachable_candidate_ids_truthy; by exists trace).
  exists (votes_between st id a b), (votes_between st id (b + 1) c).
  rewrite !get_votes_range_found by done.
  destruct (Z.ltb_spec b a); [lia|]. destruct (Z.ltb_spec c (b + 1)); [lia|].
  destruct (Z.ltb_spec c a); [lia|].
  split_and!; [done | done |]. by rewrite <- votes_between_split.
Qed.

(** X10 at work: candidate 7 of [sample_counted] got its votes at the instants
    50 and 80; the query from 0 to 60 counts one, from 61 to 100 one, and
    from 0 to 100 both. *)
Lemma range_counts_add_up_witness :
  get_votes_range sample_counted (Some 7) (Some 0) (Some 60)
  = (sample_counted, Json 235 (RRange 7 0 60 1))
  /\ get_votes_range sample_counted (Some 7) (Some 61) (Some 100)
     = (sample_counted, Json 235 (RRange 7 61 100 1))
  /\ get_votes_range sample_counted (Some 7) (Some 0) (Some 100)
     = (sample_counted, Json 235 (RRange 7 0 100 2)).
Proof.
  destruct (range_counts_add_up sample_election 7 0 60 100)
    as (first & second & H1 & H2 & H3); [by vm_compute; eexists | lia | lia |].
  fold sample_counted in H1, H2, H3. change (60 + 1) with 61 in H2.
  assert (get_votes_range sample_counted (Some 7) (Some 0) (Some 60)
          = (sample_counted, Json 235 (RRange 7 0 60 1))) as E1 by (vm_compute; reflexivity).
  assert (get_votes_range sample_counted (Some 7) (Some 61) (Some 100)
          = (sample_counted, Json 235 (RRange 7 61 100 1))) as E2 by (vm_compute; reflexivity).
  rewrite E1 in H1. rewrite E2 in H2.
  injection H1 as <-. injection H2 as <-.
  split_and!; [exact E1 | exact E2 | exact H3].
Defined.






Lemma put_voter_success st voter_id name age st' status reply :
  put_voter st voter_id name age = (st', Json status reply) ->
  exists id voter,
    voter_id = Some id /\ voters st !! JNum id = Some voter /\ status = 200
    /\ (forall a, age = Some a -> 18 <= a)
    /\ let voter' :=
         Voter.mk (Voter.voter_id voter)
                  (if bool_decide (name = JUndefined) then Voter.name voter else name)
                  (default (Voter.age voter) age) (Voter.has_voted voter) in
       reply = RVoter voter'
       /\ st' = with_voters st (<[JNum id := voter']> (voters st)).
Proof.
  unfold put_voter. intros H.
  destruct voter_id as [id|]; [|done]. simpl in H.
  destruct (voters st !! JNum id) as [voter|] eqn:Hv; [|done].
  exists id, voter. destruct age as [a|]; simpl.
  - destruct (Z.ltb_spec a 18); [done|]. injection H as <- <- <-.
    split_and!; try done. by intros ? [= <-].
  - injection H as <- <- <-. by split_and!.
Qed.

(** X14.  An update is read back and can be repeated.  When
    [PUT /api/voters/:voter_id] answers with 200, a given age is at least 18;
    the reply is the record with the name and the age replaced where the body
    gave them and with the voter's identifier and [has_voted] flag as they
    were; [GET] then answers with that record; sending the same update again
    gives the same reply and leaves the stores as they are; and the other
    voters, the candidates and the ledger are untouched. *)
Theorem updated_voter_is_read_back st id name age st' status reply :
  put_voter st (Some id) name age = (st', Json status reply) ->
  exists voter voter',
    voters st !! JNum id = Some voter
    /\ status = 200 /\ reply = RVoter voter'
    /\ Voter.voter_id voter' = Voter.voter_id voter
    /\ Voter.has_voted voter' = Voter.has_voted voter
    /\ Voter.name voter' = (if bool_decide (name = JUndefined) then Voter.name voter else name)
    /\ Voter.age voter' = default (Voter.age voter) age /\ (forall a, age = Some a -> 18 <= a)
    /\ get_voter st' (Some id) = (st', Json 222 (RVoter voter'))
    /\ put_voter st' (Some id) name age = (st', Json 200 (RVoter voter'))
    /\ (forall other, other <> JNum id -> voters st' !! other = voters st !! other)
    /\ candidates st' = candidates st /\ votes st' = votes st.
Proof.
  intros (? & voter & [= <-] & Hv & -> & Hage & Hreply & Hst)%put_voter_success.
  cbv zeta in Hreply, Hst. subst reply st'.
  eexists voter, _. split_and!; try done.
  - unfold get_voter. simpl. by rewrite lookup_insert_eq.
  - unfold put_voter. simpl. rewrite lookup_insert_eq.
    assert (forall v, with_voters (with_voters st (<[JNum id := v]> (voters st)))
                        (<[JNum id := v]> (<[JNum id := v]> (voters st)))
                      = with_voters st (<[JNum id := v]> (voters st))) as Hsame.
    { intros v. unfold with_voters. simpl. by rewrite insert_insert_eq. }
    destruct age as [a|]; simpl.
    + destruct (Z.ltb_spec a 18) as [Hlt|_]; [specialize (Hage a eq_refl); lia|].
      destruct (bool_decide (name = JUndefined)); by rewrite Hsame.
    + destruct (bool_decide (name = JUndefined)); by rewrite Hsame.
  - intros other Hne. simpl. by rewrite lookup_insert_ne.
Qed.

(** X14 at work: voter 1 of [sample_counted], who has voted, is renamed; the
    flag stays up and the age stays. *)
Lemma updated_voter_is_read_back_witness :
  let st' := (put_voter sample_counted (Some 1) (JStr "Ada L.") None).1 in
  get_voter st' (Some 1) = (st', Json 222 (RVoter (Voter.mk (JNum 1) (JStr "Ada L.") 30 true)))
  /\ put_voter st' (Some 1) (JStr "Ada L.") None
     = (st', Json 200 (RVoter (Voter.mk (JNum 1) (JStr "Ada L.") 30 true))).
Proof.
  intros st'.
  destruct (updated_voter_is_read_back sample_counted 1 (JStr "Ada L.") None st' 200
              (RVoter (Voter.mk (JNum 1) (JStr "Ada L.") 30 true)))
    as (voter & voter' & _ & _ & [= <-] & _ & _ & _ & _ & _ & Hget & Hput & _);
    [by vm_compute|].
  split; [exact Hget | exact Hput].
Defined.

Lemma handle_voters_consistent env st req :
  voters_consistent st -> voters_consistent (handle env st req).1.
Proof.
  intros Hinv. destruct (handle env st req) as [st' r] eqn:H. simpl.
  destruct req; simpl in H.
  all: try (unfold get_voter, post_candidates, get_candidate_votes, get_votes_range,
            post_ballots_encrypted, post_results_homomorphic, post_analytics_dp,
            post_ballots_ranked in H; handler_cases; done).
  - unfold post_voters in H. handler_cases; try done.
    intros key v. simpl. intros [[<- <-]|[_ Hl]]%lookup_insert_Some; [|by eauto].
    simpl. split; [done|]. by apply Z.ltb_ge.
  - destruct r as [status reply|err]; [|unfold put_voter in H; by handler_cases].
    apply put_voter_success in H as (id & voter & -> & Hv & _ & Hage & _ & ->).
    intros key v. simpl. intros [[<- <-]|[_ Hl]]%lookup_insert_Some; [|by eauto].
    destruct (Hinv _ _ Hv) as [Hid Hadult]. simpl. split; [done|].
    destruct age as [a|]; simpl; [by apply Hage | done].
  - destruct r as [status reply|err]; [|unfold delete_voter in H; by handler_cases].
    apply delete_voter_success in H as (id & voter & -> & _ & _ & ->).
    intros key v. simpl. intros [_ Hl]%lookup_delete_Some. by eauto.
  - destruct r as [status body|err].
    + apply post_votes_success in H as (voter & cand & Hv & _ & _ & _ & _ & ->).
      intros key v. simpl. intros [[<- <-]|[_ Hl]]%lookup_insert_Some; [|by eauto].
      by apply Hinv in Hv.
    + by apply post_votes_failure in H as [-> _].
Qed.

(** X15.  On every running server each registered voter is stored under its
    own [voter_id] and is at least 18 years old: registration refuses a
    younger age, an update refuses to set one, and no request changes a
    voter's identifier. *)
Theorem registered_voters_are_adults trace key v :
  voters (run initial trace).1 !! key = Some v ->
  Voter.voter_id v = key /\ 18 <= Voter.age v.
Proof.
  revert key v. apply (reachable_ind voters_consistent).
  - intros key v H. simpl in H. by rewrite lookup_empty in H.
  - intros env st req. apply handle_voters_consistent.
  - by exists trace.
Qed.

(** X15 at work on [sample_counted]. *)
Lemma registered_voters_are_adults_witness :
  exists v, voters sample_counted !! JNum 2 = Some v
            /\ Voter.voter_id v = JNum 2 /\ 18 <= Voter.age v.
Proof.
  exists (Voter.mk (JNum 2) (JStr "Bob") 41 true).
  assert (voters (run initial sample_election).1 !! JNum 2
          = Some (Voter.mk (JNum 2) (JStr "Bob") 41 true)) as H by (vm_compute; reflexivity).
  destruct (registered_voters_are_adults sample_election _ _ H) as [Hid Hage].
  split_and!; [exact H | exact Hid | exact Hage].
Defined.
